(** * LeakSanitizer standalone runtime: start-up protocol and unwind dispatch

    A shallow embedding of [system/lib/compiler-rt/lib/lsan/lsan.cpp]:
    [InitializeFlags], [__lsan_init] and [BufferedStackTrace::UnwindImpl].

    The process-wide globals the file touches are gathered in one record
    ([World]); code that can abort through [CHECK] runs in a small
    state-and-failure monad.  The external collaborators (allocator, thread
    registry, interceptors, flag parser, unwinder) are not part of this
    translation unit: the ones that only need to be observed are logged as
    calls, the ones whose answer matters are taken from a [Host] record or
    modelled from the design document, and each such model says so. *)

From Stdlib Require Import ZArith List String Ascii Bool Lia.
Import ListNotations.
Local Open Scope string_scope.
Local Open Scope list_scope.
Local Open Scope Z_scope.

(** ** Machine integers *)

(** [u32]: the value of a C++ [u32] holding [z]. *)
Definition u32 (z : Z) : Z := z mod 2 ^ 32.

(** An [int] flag holds a 32-bit signed value. *)
Definition fits_int (z : Z) : bool := (- 2 ^ 31 <=? z) && (z <? 2 ^ 31).

(** ** Flag values *)

Inductive FlagKind : Type := KBool | KInt | KStr.

Inductive FlagValue : Type :=
| VBool (b : bool)
| VInt (n : Z)
| VStr (s : option string).

Definition kind_of (v : FlagValue) : FlagKind :=
  match v with
  | VBool _ => KBool
  | VInt _ => KInt
  | VStr _ => KStr
  end.

Definition FlagKind_eqb (a b : FlagKind) : bool :=
  match a, b with
  | KBool, KBool | KInt, KInt | KStr, KStr => true
  | _, _ => false
  end.

(** ** Common flags

    The fields of [CommonFlags] that [lsan.cpp] reads or writes.  A
    [const char *] flag is an [option string], [None] being [nullptr]. *)

Record CommonFlags : Type := mkCommonFlags {
  external_symbolizer_path : option string;
  malloc_context_size : Z;
  intercept_tls_get_addr : bool;
  detect_leaks : bool;
  exitcode : Z;
  leak_check_at_exit : bool;
  verbosity : Z;
  help : bool;
  log_path : option string;
  coverage : bool;
  coverage_dir : option string;
  fast_unwind_on_fatal : bool
}.

Inductive CommonFlagId : Type :=
| F_external_symbolizer_path
| F_malloc_context_size
| F_intercept_tls_get_addr
| F_detect_leaks
| F_exitcode
| F_leak_check_at_exit
| F_verbosity
| F_help
| F_log_path
| F_coverage
| F_coverage_dir
| F_fast_unwind_on_fatal.

Definition all_common_flags : list CommonFlagId :=
  [ F_external_symbolizer_path; F_malloc_context_size;
    F_intercept_tls_get_addr; F_detect_leaks; F_exitcode;
    F_leak_check_at_exit; F_verbosity; F_help; F_log_path; F_coverage;
    F_coverage_dir; F_fast_unwind_on_fatal ].

Definition common_flag_name (f : CommonFlagId) : string :=
  match f with
  | F_external_symbolizer_path => "external_symbolizer_path"
  | F_malloc_context_size => "malloc_context_size"
  | F_intercept_tls_get_addr => "intercept_tls_get_addr"
  | F_detect_leaks => "detect_leaks"
  | F_exitcode => "exitcode"
  | F_leak_check_at_exit => "leak_check_at_exit"
  | F_verbosity => "verbosity"
  | F_help => "help"
  | F_log_path => "log_path"
  | F_coverage => "coverage"
  | F_coverage_dir => "coverage_dir"
  | F_fast_unwind_on_fatal => "fast_unwind_on_fatal"
  end.

Definition get_common (f : CommonFlagId) (cf : CommonFlags) : FlagValue :=
  match f with
  | F_external_symbolizer_path => VStr (external_symbolizer_path cf)
  | F_malloc_context_size => VInt (malloc_context_size cf)
  | F_intercept_tls_get_addr => VBool (intercept_tls_get_addr cf)
  | F_detect_leaks => VBool (detect_leaks cf)
  | F_exitcode => VInt (exitcode cf)
  | F_leak_check_at_exit => VBool (leak_check_at_exit cf)
  | F_verbosity => VInt (verbosity cf)
  | F_help => VBool (help cf)
  | F_log_path => VStr (log_path cf)
  | F_coverage => VBool (coverage cf)
  | F_coverage_dir => VStr (coverage_dir cf)
  | F_fast_unwind_on_fatal => VBool (fast_unwind_on_fatal cf)
  end.

(** Field assignments, one per field ([cf.field = value]). *)

Definition set_external_symbolizer_path (x : option string) (cf : CommonFlags) :=
  mkCommonFlags x (malloc_context_size cf) (intercept_tls_get_addr cf)
    (detect_leaks cf) (exitcode cf) (leak_check_at_exit cf) (verbosity cf)
    (help cf) (log_path cf) (coverage cf) (coverage_dir cf)
    (fast_unwind_on_fatal cf).

Definition set_malloc_context_size (x : Z) (cf : CommonFlags) :=
  mkCommonFlags (external_symbolizer_path cf) x (intercept_tls_get_addr cf)
    (detect_leaks cf) (exitcode cf) (leak_check_at_exit cf) (verbosity cf)
    (help cf) (log_path cf) (coverage cf) (coverage_dir cf)
    (fast_unwind_on_fatal cf).

Definition set_intercept_tls_get_addr (x : bool) (cf : CommonFlags) :=
  mkCommonFlags (external_symbolizer_path cf) (malloc_context_size cf) x
    (detect_leaks cf) (exitcode cf) (leak_check_at_exit cf) (verbosity cf)
    (help cf) (log_path cf) (coverage cf) (coverage_dir cf)
    (fast_unwind_on_fatal cf).

Definition set_detect_leaks (x : bool) (cf : CommonFlags) :=
  mkCommonFlags (external_symbolizer_path cf) (malloc_context_size cf)
    (intercept_tls_get_addr cf) x (exitcode cf) (leak_check_at_exit cf)
    (verbosity cf) (help cf) (log_path cf) (coverage cf) (coverage_dir cf)
    (fast_unwind_on_fatal cf).

Definition set_exitcode (x : Z) (cf : CommonFlags) :=
  mkCommonFlags (external_symbolizer_path cf) (malloc_context_size cf)
    (intercept_tls_get_addr cf) (detect_leaks cf) x (leak_check_at_exit cf)
    (verbosity cf) (help cf) (log_path cf) (coverage cf) (coverage_dir cf)
    (fast_unwind_on_fatal cf).

Definition set_leak_check_at_exit (x : bool) (cf : CommonFlags) :=
  mkCommonFlags (external_symbolizer_path cf) (malloc_context_size cf)
    (intercept_tls_get_addr cf) (detect_leaks cf) (exitcode cf) x
    (verbosity cf) (help cf) (log_path cf) (coverage cf) (coverage_dir cf)
    (fast_unwind_on_fatal cf).

Definition set_verbosity (x : Z) (cf : CommonFlags) :=
  mkCommonFlags (external_symbolizer_path cf) (malloc_context_size cf)
    (intercept_tls_get_addr cf) (detect_leaks cf) (exitcode cf)
    (leak_check_at_exit cf) x (help cf) (log_path cf) (coverage cf)
    (coverage_dir cf) (fast_unwind_on_fatal cf).

Definition set_help (x : bool) (cf : CommonFlags) :=
  mkCommonFlags (external_symbolizer_path cf) (malloc_context_size cf)
    (intercept_tls_get_addr cf) (detect_leaks cf) (exitcode cf)
    (leak_check_at_exit cf) (verbosity cf) x (log_path cf) (coverage cf)
    (coverage_dir cf) (fast_unwind_on_fatal cf).

Definition set_log_path (x : option string) (cf : CommonFlags) :=
  mkCommonFlags (external_symbolizer_path cf) (malloc_context_size cf)
    (intercept_tls_get_addr cf) (detect_leaks cf) (exitcode cf)
    (leak_check_at_exit cf) (verbosity cf) (help cf) x (coverage cf)
    (coverage_dir cf) (fast_unwind_on_fatal cf).

Definition set_coverage (x : bool) (cf : CommonFlags) :=
  mkCommonFlags (external_symbolizer_path cf) (malloc_context_size cf)
    (intercept_tls_get_addr cf) (detect_leaks cf) (exitcode cf)
    (leak_check_at_exit cf) (verbosity cf) (help cf) (log_path cf) x
    (coverage_dir cf) (fast_unwind_on_fatal cf).

Definition set_coverage_dir (x : option string) (cf : CommonFlags) :=
  mkCommonFlags (external_symbolizer_path cf) (malloc_context_size cf)
    (intercept_tls_get_addr cf) (detect_leaks cf) (exitcode cf)
    (leak_check_at_exit cf) (verbosity cf) (help cf) (log_path cf)
    (coverage cf) x (fast_unwind_on_fatal cf).

Definition set_fast_unwind_on_fatal (x : bool) (cf : CommonFlags) :=
  mkCommonFlags (external_symbolizer_path cf) (malloc_context_size cf)
    (intercept_tls_get_addr cf) (detect_leaks cf) (exitcode cf)
    (leak_check_at_exit cf) (verbosity cf) (help cf) (log_path cf)
    (coverage cf) (coverage_dir cf) x.

(** Storing a parsed value into the field a flag is registered for; a value
    of another kind than the field's is not stored. *)
Definition set_common (f : CommonFlagId) (v : FlagValue) (cf : CommonFlags)
  : CommonFlags :=
  match f, v with
  | F_external_symbolizer_path, VStr s => set_external_symbolizer_path s cf
  | F_malloc_context_size, VInt n => set_malloc_context_size n cf
  | F_intercept_tls_get_addr, VBool b => set_intercept_tls_get_addr b cf
  | F_detect_leaks, VBool b => set_detect_leaks b cf
  | F_exitcode, VInt n => set_exitcode n cf
  | F_leak_check_at_exit, VBool b => set_leak_check_at_exit b cf
  | F_verbosity, VInt n => set_verbosity n cf
  | F_help, VBool b => set_help b cf
  | F_log_path, VStr s => set_log_path s cf
  | F_coverage, VBool b => set_coverage b cf
  | F_coverage_dir, VStr s => set_coverage_dir s cf
  | F_fast_unwind_on_fatal, VBool b => set_fast_unwind_on_fatal b cf
  | _, _ => cf
  end.

(** ** Tool-specific flags

    [struct Flags] is generated from [lsan_flags.inc], a table that is not
    part of this translation unit: the table is a parameter, a list of flag
    names with their typed default values. *)

Definition Flags : Type := list (string * FlagValue).

Fixpoint get_flag (name : string) (f : Flags) : option FlagValue :=
  match f with
  | [] => None
  | (n, v) :: rest => if String.eqb n name then Some v else get_flag name rest
  end.

Fixpoint set_flag (name : string) (v : FlagValue) (f : Flags) : Flags :=
  match f with
  | [] => []
  | (n, old) :: rest =>
      if String.eqb n name
      then (if FlagKind_eqb (kind_of old) (kind_of v) then (n, v) else (n, old)) :: rest
      else (n, old) :: set_flag name v rest
  end.

(** ** The resolved configuration *)

(** The three globals flag resolution writes: [common_flags()], [flags()]
    and the list of unrecognized option names. *)
Record Config : Type := mkConfig {
  common_flags_dont_use : CommonFlags;
  lsan_flags : Flags;
  unknown_flags : list string
}.

(** What a registered option name refers to: a field of [CommonFlags] or an
    entry of the tool's [Flags]. *)
Inductive FlagTarget : Type :=
| CommonTarget (f : CommonFlagId)
| LsanTarget (name : string).

Definition read_flag (t : FlagTarget) (c : Config) : option FlagValue :=
  match t with
  | CommonTarget f => Some (get_common f (common_flags_dont_use c))
  | LsanTarget n => get_flag n (lsan_flags c)
  end.

Definition write_flag (t : FlagTarget) (v : FlagValue) (c : Config) : Config :=
  match t with
  | CommonTarget f =>
      mkConfig (set_common f v (common_flags_dont_use c)) (lsan_flags c)
        (unknown_flags c)
  | LsanTarget n =>
      mkConfig (common_flags_dont_use c) (set_flag n v (lsan_flags c))
        (unknown_flags c)
  end.

Definition add_unknown (name : string) (c : Config) : Config :=
  mkConfig (common_flags_dont_use c) (lsan_flags c) (unknown_flags c ++ [name]).

(** ** The option parser

    [FlagParser], [RegisterCommonFlags] and [RegisterLsanFlags] live in
    [sanitizer_common] and [lsan_common], outside this translation unit. *)

(** Modelled from the spec: the registry of [FlagParser], which is missing
    from the sources; an options string is made of [key=value] pairs, and
    every recognized key is registered with the storage it writes. *)
Definition FlagParser : Type := list (string * FlagTarget).

Fixpoint find_flag (name : string) (p : FlagParser) : option FlagTarget :=
  match p with
  | [] => None
  | (n, t) :: rest => if String.eqb n name then Some t else find_flag name rest
  end.

(** Modelled from the spec: [RegisterLsanFlags], missing from the sources;
    it makes every tool-specific flag of [f] a recognized key. *)
Definition RegisterLsanFlags (p : FlagParser) (f : Flags) : FlagParser :=
  p ++ map (fun nv => (fst nv, LsanTarget (fst nv))) f.

(** Modelled from the spec: [RegisterCommonFlags], missing from the sources;
    it makes every common flag a recognized key (allocation-context depth,
    symbolizer path, leak detection toggle, check-at-exit toggle, exit code,
    TLS-interception toggle, verbosity, log path, coverage toggle and
    directory, ...). *)
Definition RegisterCommonFlags (p : FlagParser) : FlagParser :=
  p ++ map (fun f => (common_flag_name f, CommonTarget f)) all_common_flags.

(** Modelled from the spec: the textual form of a boolean value, as in the
    options string [a=1:b=0]. *)
Definition parse_bool (s : string) : option bool :=
  if String.eqb s "1" then Some true
  else if String.eqb s "0" then Some false
  else None.

Definition digit_of (c : ascii) : option Z :=
  let n := Z.of_nat (nat_of_ascii c) in
  if (48 <=? n) && (n <=? 57) then Some (n - 48) else None.

Fixpoint parse_digits (s : string) (acc : Z) : option Z :=
  match s with
  | EmptyString => Some acc
  | String c rest =>
      match digit_of c with
      | Some d => parse_digits rest (10 * acc + d)
      | None => None
      end
  end.

(** Modelled from the spec: the textual form of an integer value, a decimal
    numeral with an optional sign that fits the flag's [int]. *)
Definition parse_int (s : string) : option Z :=
  let r :=
    match s with
    | EmptyString => None
    | String c rest =>
        if Ascii.eqb c "-"%char
        then match rest with
             | EmptyString => None
             | _ => option_map Z.opp (parse_digits rest 0)
             end
        else parse_digits s 0
    end in
  match r with
  | Some z => if fits_int z then Some z else None
  | None => None
  end.

(** Modelled from the spec: each flag has a typed default, and a value is
    read according to the type of the flag it is given to. *)
Definition parse_value (k : FlagKind) (text : string) : option FlagValue :=
  match k with
  | KBool => option_map VBool (parse_bool text)
  | KInt => option_map VInt (parse_int text)
  | KStr => Some (VStr (Some text))
  end.

(** Splitting [key=value] at the first [=]. *)
Fixpoint split_assignment (s : string) : option (string * string) :=
  match s with
  | EmptyString => None
  | String c rest =>
      if Ascii.eqb c "="%char then Some (EmptyString, rest)
      else match split_assignment rest with
           | Some (k, v) => Some (String c k, v)
           | None => None
           end
  end.

Section Parser.

(** The host-conventional delimiter between [key=value] pairs. *)
Variable is_delimiter : ascii -> bool.

Definition flush (tok : string) : list string :=
  match tok with
  | EmptyString => []
  | _ => [tok]
  end.

(** Modelled from the spec: the pairs of an options string, separated by
    the host-conventional delimiter. *)
Fixpoint tokens_from (s : string) (tok : string) : list string :=
  match s with
  | EmptyString => flush tok
  | String c rest =>
      if is_delimiter c then flush tok ++ tokens_from rest EmptyString
      else tokens_from rest (tok ++ String c EmptyString)%string
  end.

Definition tokens (s : string) : list string := tokens_from s EmptyString.

(** Modelled from the spec: the handling of one pair, missing from the
    sources.  A recognized key whose value is well formed is stored; a
    malformed value is ignored; an unknown key, or a token that is not an
    assignment, is collected among the unrecognized options.  Nothing
    here aborts. *)
Definition parse_flag (p : FlagParser) (c : Config) (tok : string) : Config :=
  match split_assignment tok with
  | None => add_unknown tok c
  | Some (name, text) =>
      match find_flag name p with
      | None => add_unknown name c
      | Some t =>
          match read_flag t c with
          | None => c
          | Some old =>
              match parse_value (kind_of old) text with
              | Some v => write_flag t v c
              | None => c
              end
          end
      end
  end.

(** Modelled from the spec: [FlagParser::ParseString], missing from the
    sources; each source is parsed independently, pair after pair, and a
    null string is no source at all. *)
Definition ParseString (p : FlagParser) (s : option string) (c : Config)
  : Config :=
  match s with
  | None => c
  | Some str => fold_left (parse_flag p) (tokens str) c
  end.

End Parser.

(** ** Platform and host *)

(** The compile-time variants the file is conditional on, with the two
    helpers of [sanitizer_stacktrace.h] it consults ([WillUseFastUnwind]
    depends on the unwinders the platform has; [IsValidFrame] is the
    frame-pointer test against stack bounds).  The header is not part of
    this translation unit, so both are parameters of the platform. *)
Record Platform : Type := mkPlatform {
  SANITIZER_EMSCRIPTEN : bool;
  SANITIZER_MIPS : bool;
  WillUseFastUnwind : bool -> bool;
  IsValidFrame : Z -> Z -> Z -> bool
}.

(** The external calls [lsan.cpp] makes, as they appear in the call log. *)
Inductive Collaborator : Type :=
| C_CacheBinaryName
| C_AvoidCVE_2016_2143
| C_SetCommonFlagsDefaults
| C_GetEnv
| C_OverrideCommonFlags
| C_Flags_SetDefaults
| C_RegisterLsanFlags
| C_RegisterCommonFlags
| C_MaybeCallLsanDefaultOptions
| C_ParseString
| C_EM_ASM_INT
| C_emscripten_builtin_free
| C_SetVerbosity
| C_ReportUnrecognizedFlags
| C_PrintFlagDescriptions
| C_sanitizer_set_report_path
| C_InitCommonLsan
| C_InitializeAllocator
| C_ReplaceSystemMalloc
| C_InitTlsSize
| C_InitializeInterceptors
| C_InitializeThreadRegistry
| C_InstallDeadlySignalHandlers
| C_ThreadCreate
| C_GetTid
| C_ThreadStart
| C_SetCurrentThread
| C_Atexit
| C_InitializeCoverage.

Definition Collaborator_eq_dec (a b : Collaborator) : {a = b} + {a <> b}.
Proof. decide equality. Defined.

(** What the process finds around it at start-up. *)
Record Host : Type := mkHost {
  (** the defaults of [sanitizer_flags.inc] and of [lsan_flags.inc] *)
  sanitizer_flags_inc : CommonFlags;
  lsan_flags_inc : Flags;
  (** the host-conventional delimiter of options strings *)
  option_delimiter : ascii -> bool;
  (** the environment, the value of [Module['LSAN_OPTIONS']] and the result
      of the [__lsan_default_options] hook *)
  getenv : string -> option string;
  Module_LSAN_OPTIONS : option string;
  lsan_default_options_hook : option string;
  (** the OS thread identifier of the initializing thread and its stack *)
  os_tid : Z;
  os_stack_begin : Z;
  os_stack_end : Z;
  (** the identifier the thread registry hands out at bring-up *)
  registry_reply : Z;
  (** the collaborators that call back into the entry point *)
  reenters : Collaborator -> bool
}.

(** ** The thread registry *)

Inductive ThreadStatus : Type :=
| ThreadStatusCreated
| ThreadStatusRunning.

Record ThreadContext : Type := mkThreadContext {
  tid : Z;
  parent_tid : Z;
  user_id : Z;
  detached : bool;
  status : ThreadStatus;
  os_id : Z;
  stack_begin : Z;
  stack_end : Z
}.

(** The callbacks [Atexit] can be given here. *)
Inductive ExitCallback : Type := DoLeakCheck.

(** ** Process state *)

Record World : Type := mkWorld {
  lsan_inited : bool;
  lsan_init_is_running : bool;
  SanitizerToolName : option string;
  config : Config;
  snapshot_stack : bool;
  current_verbosity : Z;
  report_path : option string;
  thread_registry : option (list ThreadContext);
  current_thread_tid : option Z;
  atexit_callbacks : list ExitCallback;
  coverage_initialized : option (bool * option string);
  calls : list Collaborator
}.

Definition common_flags (w : World) : CommonFlags :=
  common_flags_dont_use (config w).

Definition set_lsan_inited (x : bool) (w : World) : World :=
  mkWorld x (lsan_init_is_running w) (SanitizerToolName w) (config w)
    (snapshot_stack w) (current_verbosity w) (report_path w)
    (thread_registry w) (current_thread_tid w) (atexit_callbacks w)
    (coverage_initialized w) (calls w).

Definition set_lsan_init_is_running (x : bool) (w : World) : World :=
  mkWorld (lsan_inited w) x (SanitizerToolName w) (config w)
    (snapshot_stack w) (current_verbosity w) (report_path w)
    (thread_registry w) (current_thread_tid w) (atexit_callbacks w)
    (coverage_initialized w) (calls w).

Definition set_SanitizerToolName (x : option string) (w : World) : World :=
  mkWorld (lsan_inited w) (lsan_init_is_running w) x (config w)
    (snapshot_stack w) (current_verbosity w) (report_path w)
    (thread_registry w) (current_thread_tid w) (atexit_callbacks w)
    (coverage_initialized w) (calls w).

Definition set_config (x : Config) (w : World) : World :=
  mkWorld (lsan_inited w) (lsan_init_is_running w) (SanitizerToolName w) x
    (snapshot_stack w) (current_verbosity w) (report_path w)
    (thread_registry w) (current_thread_tid w) (atexit_callbacks w)
    (coverage_initialized w) (calls w).

Definition set_snapshot_stack (x : bool) (w : World) : World :=
  mkWorld (lsan_inited w) (lsan_init_is_running w) (SanitizerToolName w)
    (config w) x (current_verbosity w) (report_path w)
    (thread_registry w) (current_thread_tid w) (atexit_callbacks w)
    (coverage_initialized w) (calls w).

Definition set_current_verbosity (x : Z) (w : World) : World :=
  mkWorld (lsan_inited w) (lsan_init_is_running w) (SanitizerToolName w)
    (config w) (snapshot_stack w) x (report_path w)
    (thread_registry w) (current_thread_tid w) (atexit_callbacks w)
    (coverage_initialized w) (calls w).

Definition set_report_path (x : option string) (w : World) : World :=
  mkWorld (lsan_inited w) (lsan_init_is_running w) (SanitizerToolName w)
    (config w) (snapshot_stack w) (current_verbosity w) x
    (thread_registry w) (current_thread_tid w) (atexit_callbacks w)
    (coverage_initialized w) (calls w).

Definition set_thread_registry (x : option (list ThreadContext)) (w : World)
  : World :=
  mkWorld (lsan_inited w) (lsan_init_is_running w) (SanitizerToolName w)
    (config w) (snapshot_stack w) (current_verbosity w) (report_path w)
    x (current_thread_tid w) (atexit_callbacks w)
    (coverage_initialized w) (calls w).

Definition set_current_thread_tid (x : option Z) (w : World) : World :=
  mkWorld (lsan_inited w) (lsan_init_is_running w) (SanitizerToolName w)
    (config w) (snapshot_stack w) (current_verbosity w) (report_path w)
    (thread_registry w) x (atexit_callbacks w)
    (coverage_initialized w) (calls w).

Definition set_atexit_callbacks (x : list ExitCallback) (w : World) : World :=
  mkWorld (lsan_inited w) (lsan_init_is_running w) (SanitizerToolName w)
    (config w) (snapshot_stack w) (current_verbosity w) (report_path w)
    (thread_registry w) (current_thread_tid w) x
    (coverage_initialized w) (calls w).

Definition set_coverage_initialized (x : option (bool * option string))
  (w : World) : World :=
  mkWorld (lsan_inited w) (lsan_init_is_running w) (SanitizerToolName w)
    (config w) (snapshot_stack w) (current_verbosity w) (report_path w)
    (thread_registry w) (current_thread_tid w) (atexit_callbacks w)
    x (calls w).

Definition set_calls (x : list Collaborator) (w : World) : World :=
  mkWorld (lsan_inited w) (lsan_init_is_running w) (SanitizerToolName w)
    (config w) (snapshot_stack w) (current_verbosity w) (report_path w)
    (thread_registry w) (current_thread_tid w) (atexit_callbacks w)
    (coverage_initialized w) x.

(** The globals of a process at load time: zero-initialized, with stack
    snapshots enabled until [InitializeFlags] says otherwise. *)
Definition initial_config : Config :=
  mkConfig
    (mkCommonFlags None 0 false false 0 false 0 false None false None false)
    [] [].

Definition initial_world : World :=
  mkWorld false false None initial_config true 0 None None None [] None [].

(** ** Computations that may abort *)

Inductive Outcome (A : Type) : Type :=
| Returned (a : A) (w : World)
| Died (msg : string) (w : World)
| OutOfFuel.
Arguments Returned {A} a w.
Arguments Died {A} msg w.
Arguments OutOfFuel {A}.

Definition M (A : Type) : Type := World -> Outcome A.

Definition ret {A} (a : A) : M A := fun w => Returned a w.

Definition bind {A B} (m : M A) (k : A -> M B) : M B :=
  fun w =>
    match m w with
    | Returned a w' => k a w'
    | Died msg w' => Died msg w'
    | OutOfFuel => OutOfFuel
    end.

Definition gets {A} (f : World -> A) : M A := fun w => Returned (f w) w.
Definition modify (f : World -> World) : M unit := fun w => Returned tt (f w).
Definition out_of_fuel {A} : M A := fun _ => OutOfFuel.

(** [CHECK(cond)]: a failed check reports and kills the process. *)
Definition CHECK (cond : bool) (msg : string) : M unit :=
  fun w => if cond then Returned tt w else Died msg w.

Declare Scope lsan_scope.
Delimit Scope lsan_scope with lsan.
Notation "x <- m ;; k" := (bind m (fun x => k))
  (at level 61, m at next level, right associativity) : lsan_scope.
Notation "m ;; k" := (bind m (fun _ => k))
  (at level 61, right associativity) : lsan_scope.
Local Open Scope lsan_scope.

Definition when (b : bool) (m : M unit) : M unit := if b then m else ret tt.

(** The reports of the two checks of [__lsan_init]. *)
Definition msg_init_is_running : string := "((!lsan_init_is_running)) != (0)".
Definition msg_tid_zero : string := "((tid)) == ((0))".

(** ** The runtime *)

Section Runtime.

Variable pf : Platform.
Variable host : Host.

(** *** Collaborators *)

Section Calls.

(** What happens when a collaborator calls back into the entry point
    (for instance an allocation made during start-up). *)
Variable reenter : M unit.

(** An external call: it is logged, and a re-entering collaborator runs
    the entry point before it returns. *)
Definition call (c : Collaborator) : M unit :=
  modify (fun w => set_calls (calls w ++ [c]) w) ;;
  when (reenters host c) reenter.

Definition GetEnv (name : string) : M (option string) :=
  call C_GetEnv ;; ret (getenv host name).

Definition SetCommonFlagsDefaults : M unit :=
  call C_SetCommonFlagsDefaults ;;
  modify (fun w =>
    set_config (mkConfig (sanitizer_flags_inc host) (lsan_flags (config w))
                  (unknown_flags (config w))) w).

Definition OverrideCommonFlags (cf : CommonFlags) : M unit :=
  call C_OverrideCommonFlags ;;
  modify (fun w =>
    set_config (mkConfig cf (lsan_flags (config w))
                  (unknown_flags (config w))) w).

(** [f->SetDefaults()] on [flags()]. *)
Definition Flags_SetDefaults : M unit :=
  call C_Flags_SetDefaults ;;
  modify (fun w =>
    set_config (mkConfig (common_flags_dont_use (config w))
                  (lsan_flags_inc host) (unknown_flags (config w))) w).

Definition MaybeCallLsanDefaultOptions : M (option string) :=
  call C_MaybeCallLsanDefaultOptions ;; ret (lsan_default_options_hook host).

(** [allocateUTF8(Module['LSAN_OPTIONS'] || 0)]: the options string of
    the module, an empty string when there is none. *)
Definition EM_ASM_INT_LSAN_OPTIONS : M (option string) :=
  call C_EM_ASM_INT ;;
  ret (match Module_LSAN_OPTIONS host with
       | Some s => Some s
       | None => Some EmptyString
       end).

Definition parser_ParseString (p : FlagParser) (s : option string) : M unit :=
  call C_ParseString ;;
  modify (fun w =>
    set_config (ParseString (option_delimiter host) p s (config w)) w).

Definition SetVerbosity (v : Z) : M unit :=
  call C_SetVerbosity ;; modify (set_current_verbosity v).

Definition Verbosity : M Z := gets current_verbosity.

Definition sanitizer_set_report_path (path : option string) : M unit :=
  call C_sanitizer_set_report_path ;; modify (set_report_path path).

(** Modelled from the spec: the thread registry ([lsan_thread.cpp] is
    not among the sources), with the operations init, create-thread,
    start-thread, set-current-thread and lookup-current-thread-context.
    The identifier of a new thread is the registry's to choose. *)
Definition registry_contexts (w : World) : list ThreadContext :=
  match thread_registry w with
  | Some l => l
  | None => []
  end.

Definition InitializeThreadRegistry : M unit :=
  call C_InitializeThreadRegistry ;;
  modify (set_thread_registry (Some [])).

Definition ThreadCreate (parent : Z) (user : Z) (is_detached : bool) : M Z :=
  call C_ThreadCreate ;;
  let new_tid := u32 (registry_reply host) in
  modify (fun w =>
    set_thread_registry
      (Some (registry_contexts w ++
             [mkThreadContext new_tid parent user is_detached
                ThreadStatusCreated 0 0 0])) w) ;;
  ret new_tid.

Definition GetTid : M Z := call C_GetTid ;; ret (os_tid host).

Definition start_context (t os : Z) (c : ThreadContext) : ThreadContext :=
  if tid c =? t
  then mkThreadContext (tid c) (parent_tid c) (user_id c) (detached c)
         ThreadStatusRunning os (os_stack_begin host) (os_stack_end host)
  else c.

Definition ThreadStart (t : Z) (os : Z) : M unit :=
  call C_ThreadStart ;;
  modify (fun w =>
    set_thread_registry (Some (map (start_context t os) (registry_contexts w))) w).

Definition SetCurrentThread (t : Z) : M unit :=
  call C_SetCurrentThread ;; modify (set_current_thread_tid (Some t)).

Definition Atexit (f : ExitCallback) : M unit :=
  call C_Atexit ;;
  modify (fun w => set_atexit_callbacks (atexit_callbacks w ++ [f]) w).

Definition InitializeCoverage (enabled : bool) (dir : option string) : M unit :=
  call C_InitializeCoverage ;;
  modify (set_coverage_initialized (Some (enabled, dir))).

(** *** [InitializeFlags] *)

Definition InitializeFlags : M unit :=
  (* Set all the default values. *)
  SetCommonFlagsDefaults ;;
  cf <- gets common_flags ;;
  cf <- (if SANITIZER_EMSCRIPTEN pf then ret cf
         else path <- GetEnv "LSAN_SYMBOLIZER_PATH" ;;
              ret (set_external_symbolizer_path path cf)) ;;
  let cf := set_malloc_context_size 30 cf in
  let cf := set_intercept_tls_get_addr true cf in
  let cf := set_detect_leaks true cf in
  let cf := set_exitcode 23 cf in
  OverrideCommonFlags cf ;;
  Flags_SetDefaults ;;
  f <- gets (fun w => lsan_flags (config w)) ;;
  call C_RegisterLsanFlags ;;
  let parser := RegisterLsanFlags [] f in
  call C_RegisterCommonFlags ;;
  let parser := RegisterCommonFlags parser in
  (* Override from user-specified string. *)
  lsan_default_options <- MaybeCallLsanDefaultOptions ;;
  parser_ParseString parser lsan_default_options ;;
  (if SANITIZER_EMSCRIPTEN pf
   then options <- EM_ASM_INT_LSAN_OPTIONS ;;
        parser_ParseString parser options ;;
        call C_emscripten_builtin_free
   else options <- GetEnv "LSAN_OPTIONS" ;;
        parser_ParseString parser options) ;;
  (if SANITIZER_EMSCRIPTEN pf
   then mcs <- gets (fun w => malloc_context_size (common_flags w)) ;;
        when (mcs <=? 1) (modify (set_snapshot_stack false))
   else ret tt) ;;
  v <- gets (fun w => verbosity (common_flags w)) ;;
  SetVerbosity v ;;
  cur <- Verbosity ;;
  when (negb (cur =? 0)) (call C_ReportUnrecognizedFlags) ;;
  h <- gets (fun w => help (common_flags w)) ;;
  when h (call C_PrintFlagDescriptions) ;;
  lp <- gets (fun w => log_path (common_flags w)) ;;
  sanitizer_set_report_path lp.

(** *** [__lsan_init] *)

Definition lsan_init_body : M unit :=
  running <- gets lsan_init_is_running ;;
  CHECK (negb running) msg_init_is_running ;;
  inited <- gets lsan_inited ;;
  if inited then ret tt
  else
    modify (set_lsan_init_is_running true) ;;
    modify (set_SanitizerToolName (Some "LeakSanitizer")) ;;
    call C_CacheBinaryName ;;
    call C_AvoidCVE_2016_2143 ;;
    InitializeFlags ;;
    call C_InitCommonLsan ;;
    call C_InitializeAllocator ;;
    call C_ReplaceSystemMalloc ;;
    call C_InitTlsSize ;;
    call C_InitializeInterceptors ;;
    InitializeThreadRegistry ;;
    (* Emscripten does not have signals *)
    when (negb (SANITIZER_EMSCRIPTEN pf)) (call C_InstallDeadlySignalHandlers) ;;
    t <- ThreadCreate 0 0 true ;;
    CHECK (t =? 0) msg_tid_zero ;;
    os <- GetTid ;;
    ThreadStart t os ;;
    SetCurrentThread t ;;
    dl <- gets (fun w => detect_leaks (common_flags w)) ;;
    lc <- gets (fun w => leak_check_at_exit (common_flags w)) ;;
    when (dl && lc) (Atexit DoLeakCheck) ;;
    cov <- gets (fun w => coverage (common_flags w)) ;;
    dir <- gets (fun w => coverage_dir (common_flags w)) ;;
    InitializeCoverage cov dir ;;
    modify (set_lsan_inited true) ;;
    modify (set_lsan_init_is_running false).

End Calls.

(** The entry point, with the nesting depth of its re-entrant calls
    bounded by [fuel]. *)
Fixpoint lsan_init_fuel (fuel : nat) : M unit :=
  lsan_init_body
    (match fuel with
     | O => out_of_fuel
     | S n => lsan_init_fuel n
     end).

(** One level of nesting is all a run can reach (see
    [lsan_init_fuel_enough]). *)
Definition __lsan_init : M unit := lsan_init_fuel 1.

(** [n] calls of the entry point in a row. *)
Fixpoint lsan_init_times (n : nat) : M unit :=
  match n with
  | O => ret tt
  | S k => __lsan_init ;; lsan_init_times k
  end.

End Runtime.

(** ** Stack unwinding *)

Record BufferedStackTrace : Type := mkBufferedStackTrace {
  trace : list Z;
  top_frame_bp : Z
}.

Definition nullptr : Z := 0.

(** Modelled from the spec: [CurrentThreadContext], the registry's
    lookup-current-thread-context operation ([lsan_thread.cpp] is not among
    the sources); it answers with the record of the calling thread, or with
    none when there is no registry or no current thread. *)
Definition CurrentThreadContext (w : World) : option ThreadContext :=
  match thread_registry w, current_thread_tid w with
  | Some l, Some t => find (fun c => tid c =? t) l
  | _, _ => None
  end.

Section Unwinding.

Variable pf : Platform.

(** The seven-argument [BufferedStackTrace::Unwind] of [sanitizer_common]:
    [Unwind this max_depth pc bp context stack_top stack_bottom
    request_fast_unwind] is the stack object after the unwinder ran. *)
Variable Unwind :
  BufferedStackTrace -> Z -> Z -> Z -> Z -> Z -> Z -> bool -> BufferedStackTrace.

Definition UnwindImpl (w : World) (this : BufferedStackTrace)
    (pc bp context : Z) (request_fast : bool) (max_depth : Z)
  : BufferedStackTrace :=
  let bounds :=
    if WillUseFastUnwind pf request_fast
    then match CurrentThreadContext w with
         | Some t => (stack_end t, stack_begin t)
         | None => (0, 0)
         end
    else (0, 0) in
  let stack_top := fst bounds in
  let stack_bottom := snd bounds in
  if negb (SANITIZER_MIPS pf) || IsValidFrame pf bp stack_top stack_bottom
  then
    if WillUseFastUnwind pf request_fast
    then Unwind this max_depth pc bp nullptr stack_top stack_bottom true
    else Unwind this max_depth pc 0 context 0 0 false
  else this.

End Unwinding.

(** A recording double of the unwinder: the frames it leaves are the
    arguments it was called with, so that the call made can be read off the
    result. *)
Definition Unwind_recorder (this : BufferedStackTrace)
    (max_depth pc bp context stack_top stack_bottom : Z) (fast : bool)
  : BufferedStackTrace :=
  mkBufferedStackTrace
    [max_depth; pc; bp; context; stack_top; stack_bottom; if fast then 1 else 0]
    (top_frame_bp this).

(** Modelled from the spec: a frame-pointer test that validates the frame
    pointer against the stack bounds, for the platforms used as examples
    ([IsValidFrame] itself is a parameter of the platform). *)
Definition frame_in_bounds (frame stack_top stack_bottom : Z) : bool :=
  (stack_bottom <? frame) && (frame <? stack_top).

(** ** What the code is expected to compute *)

(** The tool's defaults: the common defaults with the values
    [InitializeFlags] stores before any options string is read. *)
Definition tool_defaults (pf : Platform) (host : Host) : CommonFlags :=
  let cf := sanitizer_flags_inc host in
  let cf := if SANITIZER_EMSCRIPTEN pf then cf
            else set_external_symbolizer_path
                   (getenv host "LSAN_SYMBOLIZER_PATH") cf in
  set_exitcode 23
    (set_detect_leaks true
       (set_intercept_tls_get_addr true (set_malloc_context_size 30 cf))).

Definition default_config (pf : Platform) (host : Host) (unknown : list string)
  : Config :=
  mkConfig (tool_defaults pf host) (lsan_flags_inc host) unknown.

(** The keys [InitializeFlags] registers. *)
Definition lsan_parser (host : Host) : FlagParser :=
  RegisterCommonFlags (RegisterLsanFlags [] (lsan_flags_inc host)).

(** The two option sources, in the order they are parsed. *)
Definition embedded_options (host : Host) : option string :=
  lsan_default_options_hook host.

Definition platform_options (pf : Platform) (host : Host) : option string :=
  if SANITIZER_EMSCRIPTEN pf
  then match Module_LSAN_OPTIONS host with
       | Some s => Some s
       | None => Some EmptyString
       end
  else getenv host "LSAN_OPTIONS".

Definition resolved_config (pf : Platform) (host : Host) (unknown : list string)
  : Config :=
  ParseString (option_delimiter host) (lsan_parser host) (platform_options pf host)
    (ParseString (option_delimiter host) (lsan_parser host) (embedded_options host)
       (default_config pf host unknown)).

(** The value a [key=value] token gives to [key], read as a flag of kind
    [k]; none when the token is about another key or is malformed. *)
Definition assigned_by (key : string) (k : FlagKind) (tok : string)
  : option FlagValue :=
  match split_assignment tok with
  | Some (name, text) => if String.eqb name key then parse_value k text else None
  | None => None
  end.

(** The value the last well-formed mention of [key] in a token list gives. *)
Fixpoint last_assigned (key : string) (k : FlagKind) (toks : list string)
  : option FlagValue :=
  match toks with
  | [] => None
  | tok :: rest =>
      match last_assigned key k rest with
      | Some v => Some v
      | None => assigned_by key k tok
      end
  end.

(** What an option source says about [key]. *)
Definition mention (delim : ascii -> bool) (src : option string)
    (key : string) (k : FlagKind) : option FlagValue :=
  match src with
  | None => None
  | Some s => last_assigned key k (tokens delim s)
  end.

(** Last writer wins: the latest of defaults, embedded string and platform
    string that mentions the key. *)
Definition last_writer (delim : ascii -> bool) (embedded platform : option string)
    (key : string) (default : FlagValue) : FlagValue :=
  match mention delim platform key (kind_of default) with
  | Some v => v
  | None =>
      match mention delim embedded key (kind_of default) with
      | Some v => v
      | None => default
      end
  end.

(** The external calls of [InitializeFlags], in order, for a run that
    resolves the common flags to [cf]. *)
Definition InitializeFlags_calls (pf : Platform) (cf : CommonFlags)
  : list Collaborator :=
  [C_SetCommonFlagsDefaults] ++
  (if SANITIZER_EMSCRIPTEN pf then [] else [C_GetEnv]) ++
  [C_OverrideCommonFlags; C_Flags_SetDefaults; C_RegisterLsanFlags;
   C_RegisterCommonFlags; C_MaybeCallLsanDefaultOptions; C_ParseString] ++
  (if SANITIZER_EMSCRIPTEN pf
   then [C_EM_ASM_INT; C_ParseString; C_emscripten_builtin_free]
   else [C_GetEnv; C_ParseString]) ++
  [C_SetVerbosity] ++
  (if negb (verbosity cf =? 0) then [C_ReportUnrecognizedFlags] else []) ++
  (if help cf then [C_PrintFlagDescriptions] else []) ++
  [C_sanitizer_set_report_path].

(** The state [InitializeFlags] leaves when it returns. *)
Definition InitializeFlags_effect (pf : Platform) (host : Host) (w : World)
  : World :=
  let c := resolved_config pf host (unknown_flags (config w)) in
  let cf := common_flags_dont_use c in
  mkWorld (lsan_inited w) (lsan_init_is_running w) (SanitizerToolName w) c
    (if SANITIZER_EMSCRIPTEN pf && (malloc_context_size cf <=? 1)
     then false else snapshot_stack w)
    (verbosity cf) (log_path cf) (thread_registry w) (current_thread_tid w)
    (atexit_callbacks w) (coverage_initialized w)
    (calls w ++ InitializeFlags_calls pf cf).

(** The bring-up steps [__lsan_init] makes on every platform variant,
    whatever the configuration. *)
Definition bring_up_steps (pf : Platform) : list Collaborator :=
  [C_CacheBinaryName; C_AvoidCVE_2016_2143; C_SetCommonFlagsDefaults;
   C_OverrideCommonFlags; C_InitCommonLsan; C_InitializeAllocator;
   C_ReplaceSystemMalloc; C_InitTlsSize; C_InitializeInterceptors;
   C_InitializeThreadRegistry] ++
  (if SANITIZER_EMSCRIPTEN pf then [] else [C_InstallDeadlySignalHandlers]) ++
  [C_ThreadCreate; C_ThreadStart; C_SetCurrentThread; C_InitializeCoverage].

(** The calls of a completed bring-up, in order. *)
Definition bring_up_calls (pf : Platform) (cf : CommonFlags)
  : list Collaborator :=
  [C_CacheBinaryName; C_AvoidCVE_2016_2143] ++
  InitializeFlags_calls pf cf ++
  [C_InitCommonLsan; C_InitializeAllocator; C_ReplaceSystemMalloc;
   C_InitTlsSize; C_InitializeInterceptors; C_InitializeThreadRegistry] ++
  (if SANITIZER_EMSCRIPTEN pf then [] else [C_InstallDeadlySignalHandlers]) ++
  [C_ThreadCreate; C_GetTid; C_ThreadStart; C_SetCurrentThread] ++
  (if detect_leaks cf && leak_check_at_exit cf then [C_Atexit] else []) ++
  [C_InitializeCoverage].

(** The calls a first call of the entry point makes from state [w] when
    nothing stops it. *)
Definition planned_calls (pf : Platform) (host : Host) (w : World)
  : list Collaborator :=
  bring_up_calls pf
    (common_flags_dont_use (resolved_config pf host (unknown_flags (config w)))).

(** The record of the bootstrap thread once it is started. *)
Definition bootstrap_thread (host : Host) : ThreadContext :=
  mkThreadContext 0 0 0 true ThreadStatusRunning (os_tid host)
    (os_stack_begin host) (os_stack_end host).

(** The state a completed first call of [__lsan_init] leaves. *)
Definition bring_up_effect (pf : Platform) (host : Host) (w : World) : World :=
  let c := resolved_config pf host (unknown_flags (config w)) in
  let cf := common_flags_dont_use c in
  mkWorld true false (Some "LeakSanitizer") c
    (if SANITIZER_EMSCRIPTEN pf && (malloc_context_size cf <=? 1)
     then false else snapshot_stack w)
    (verbosity cf) (log_path cf) (Some [bootstrap_thread host]) (Some 0)
    (atexit_callbacks w ++
     (if detect_leaks cf && leak_check_at_exit cf then [DoLeakCheck] else []))
    (Some (coverage cf, coverage_dir cf))
    (calls w ++ bring_up_calls pf cf).

(** How many times a collaborator was called. *)
Definition times_called (c : Collaborator) (w : World) : nat :=
  count_occ Collaborator_eq_dec (calls w) c.

Definition times_registered (w : World) : nat :=
  List.length (atexit_callbacks w).


(** ** Properties of computations *)

(** A re-entrant call made while the entry point runs dies at its first
    check. *)
Definition dies_while_running (r : M unit) : Prop :=
  forall s, lsan_init_is_running s = true -> r s = Died msg_init_is_running s.

(** Two computations that agree from every state in which the entry point
    runs, and leave it running when they return. *)
Definition same_while_running {A} (m1 m2 : M A) : Prop :=
  forall s, lsan_init_is_running s = true ->
    m1 s = m2 s /\
    forall a s', m1 s = Returned a s' -> lsan_init_is_running s' = true.

Definition same_result {A} (m1 m2 : M A) : Prop :=
  forall s, lsan_init_is_running s = true -> m1 s = m2 s.

(** [outcome_spec m s R D]: from [s], [m] returns in a state satisfying [R]
    or dies in a state satisfying [D]; it does not run out of fuel. *)
Definition outcome_spec {A} (m : M A) (s : World)
    (R : A -> World -> Prop) (D : string -> World -> Prop) : Prop :=
  match m s with
  | Returned a s' => R a s'
  | Died msg w => D msg w
  | OutOfFuel => False
  end.

(** The name under which a target is registered. *)
Definition target_name (t : FlagTarget) : string :=
  match t with
  | CommonTarget f => common_flag_name f
  | LsanTarget n => n
  end.

Definition parser_names_ok (p : FlagParser) : Prop :=
  forall name t, find_flag name p = Some t -> target_name t = name.

(** ** Example platforms and hosts *)

Definition colon_delimiter (c : ascii) : bool := Ascii.eqb c ":"%char.

Definition example_common_defaults : CommonFlags :=
  mkCommonFlags None 1 false false 1 true 0 false (Some "stderr") false
    (Some ".") false.

Definition example_lsan_defaults : Flags :=
  [("report_objects", VBool false); ("max_leaks", VInt 0)].

Definition linux_platform : Platform :=
  mkPlatform false false (fun request_fast => request_fast) frame_in_bounds.

Definition emscripten_platform : Platform :=
  mkPlatform true false (fun request_fast => request_fast) frame_in_bounds.

Definition mips_platform : Platform :=
  mkPlatform false true (fun request_fast => request_fast) frame_in_bounds.

Definition no_environment (name : string) : option string := None.

Definition nobody_reenters (c : Collaborator) : bool := false.

(** A host with no options at all. *)
Definition quiet_host : Host :=
  mkHost example_common_defaults example_lsan_defaults colon_delimiter
    no_environment None None 77 4096 8192 0 nobody_reenters.

(** A host whose module options and embedded default-options string both
    speak: the module sets the depth and the verbosity, the embedded string
    the verbosity, the exit code and a tool flag. *)
Definition options_host : Host :=
  mkHost example_common_defaults example_lsan_defaults colon_delimiter
    no_environment (Some "malloc_context_size=1:verbosity=2")
    (Some "verbosity=1:exitcode=5:max_leaks=7") 77 4096 8192 0 nobody_reenters.

(** A host whose environment lowers every value the tool stores. *)
Definition weakening_environment (name : string) : option string :=
  if String.eqb name "LSAN_OPTIONS"
  then Some "detect_leaks=0:malloc_context_size=5:exitcode=0:intercept_tls_get_addr=0"
  else None.

Definition weakening_host : Host :=
  mkHost example_common_defaults example_lsan_defaults colon_delimiter
    weakening_environment None None 77 4096 8192 0 nobody_reenters.

(** A host whose allocator calls back into the entry point. *)
Definition allocator_reenters (c : Collaborator) : bool :=
  if Collaborator_eq_dec c C_InitializeAllocator then true else false.

Definition reentrant_host : Host :=
  mkHost example_common_defaults example_lsan_defaults colon_delimiter
    no_environment None None 77 4096 8192 0 allocator_reenters.

(** A host whose thread registry answers with identifier 1. *)
Definition bad_registry_host : Host :=
  mkHost example_common_defaults example_lsan_defaults colon_delimiter
    no_environment None None 77 4096 8192 1 nobody_reenters.

(** A process caught in the middle of its initialization. *)
Definition running_world : World := set_lsan_init_is_running true initial_world.

Definition empty_stack : BufferedStackTrace := mkBufferedStackTrace [] 0.

(** ** How a first call can die *)

(** The record [ThreadCreate(0, 0, true)] leaves before the thread is
    started. *)
Definition created_thread (host : Host) : ThreadContext :=
  mkThreadContext (u32 (registry_reply host)) 0 0 true ThreadStatusCreated 0 0 0.

(** The process died inside a collaborator that called back: that call is
    the last one logged, and it is one of [planned]. *)
Definition died_in_call (host : Host) (planned : list Collaborator) (w : World)
  : Prop :=
  exists pre c,
    calls w = pre ++ [c] /\ reenters host c = true /\ In c planned.

(** The process died on the identifier of the bootstrap thread: the record
    is created but not started, and nothing after [ThreadCreate] has run. *)
Definition died_on_tid (host : Host) (s w : World) : Prop :=
  u32 (registry_reply host) <> 0 /\
  thread_registry w = Some [created_thread host] /\
  current_thread_tid w = current_thread_tid s /\
  atexit_callbacks w = atexit_callbacks s /\
  coverage_initialized w = coverage_initialized s /\
  exists pre, calls w = pre ++ [C_ThreadCreate].

(** A host whose environment names a symbolizer. *)
Definition symbolizer_environment (name : string) : option string :=
  if String.eqb name "LSAN_SYMBOLIZER_PATH" then Some "/usr/bin/llvm-symbolizer"
  else None.

Definition symbolizer_host : Host :=
  mkHost example_common_defaults example_lsan_defaults colon_delimiter
    symbolizer_environment None None 77 4096 8192 0 nobody_reenters.

(** * Proofs *)

Arguments ParseString : simpl never.
Arguments RegisterCommonFlags : simpl never.
Arguments RegisterLsanFlags : simpl never.
Arguments u32 : simpl never.

(** ** Re-entrant calls never get past the first check *)

Lemma swr_ret {A} (a : A) : same_while_running (ret a) (ret a).
Proof.
  intros s Hs; split; [reflexivity|].
  unfold ret; intros ? ? [= <- <-]; exact Hs.
Qed.

Lemma swr_gets {A} (f : World -> A) : same_while_running (gets f) (gets f).
Proof.
  intros s Hs; split; [reflexivity|].
  unfold gets; intros ? ? [= <- <-]; exact Hs.
Qed.

Lemma swr_modify (f : World -> World) :
  (forall s, lsan_init_is_running (f s) = lsan_init_is_running s) ->
  same_while_running (modify f) (modify f).
Proof.
  intros Hf s Hs; split; [reflexivity|].
  unfold modify; intros ? ? [= <- <-]. now rewrite Hf.
Qed.

Lemma swr_CHECK b msg : same_while_running (CHECK b msg) (CHECK b msg).
Proof.
  intros s Hs; split; [reflexivity|].
  unfold CHECK; destruct b; intros ? ? [= <- <-]; exact Hs.
Qed.

Lemma swr_bind {A B} (m1 m2 : M A) (k1 k2 : A -> M B) :
  same_while_running m1 m2 ->
  (forall a, same_while_running (k1 a) (k2 a)) ->
  same_while_running (bind m1 k1) (bind m2 k2).
Proof.
  intros Hm Hk s Hs. destruct (Hm s Hs) as [E Hpost].
  unfold bind. rewrite <- E.
  destruct (m1 s) as [a w| |]; try (split; [reflexivity | discriminate]).
  apply Hk. now apply (Hpost a w).
Qed.

Lemma swr_died (r1 r2 : M unit) :
  dies_while_running r1 -> dies_while_running r2 -> same_while_running r1 r2.
Proof.
  intros H1 H2 s Hs. rewrite (H1 s Hs), (H2 s Hs).
  split; [reflexivity | discriminate].
Qed.

Lemma swr_when b (m1 m2 : M unit) :
  same_while_running m1 m2 -> same_while_running (when b m1) (when b m2).
Proof. intros H. destruct b; simpl; [exact H | apply swr_ret]. Qed.

Lemma swr_call host (r1 r2 : M unit) c :
  dies_while_running r1 -> dies_while_running r2 ->
  same_while_running (call host r1 c) (call host r2 c).
Proof.
  intros H1 H2. unfold call. apply swr_bind.
  - apply swr_modify. reflexivity.
  - intros _. apply swr_when. now apply swr_died.
Qed.

Lemma same_result_bind {A B} (m1 m2 : M A) (k1 k2 : A -> M B) :
  same_while_running m1 m2 ->
  (forall a, same_result (k1 a) (k2 a)) ->
  same_result (bind m1 k1) (bind m2 k2).
Proof.
  intros Hm Hk s Hs. destruct (Hm s Hs) as [E Hpost].
  unfold bind. rewrite <- E.
  destruct (m1 s) as [a w| |]; try reflexivity.
  apply Hk. now apply (Hpost a w).
Qed.

Lemma same_bind_left {A B} (m : M A) (k1 k2 : A -> M B) :
  (forall a s, k1 a s = k2 a s) -> forall s, bind m k1 s = bind m k2 s.
Proof. intros H s. unfold bind. destruct (m s); auto. Qed.

Lemma same_enter {B} (k1 k2 : unit -> M B) :
  same_result (k1 tt) (k2 tt) ->
  forall s, bind (modify (set_lsan_init_is_running true)) k1 s =
            bind (modify (set_lsan_init_is_running true)) k2 s.
Proof. intros H s. unfold bind, modify. apply H. reflexivity. Qed.

(** Syntax-directed proof that a computation behaves the same whatever the
    re-entrant call is, as long as that call dies. *)
Ltac swr :=
  repeat (intros; lazymatch goal with
    | |- same_while_running (ret _) _ => apply swr_ret
    | |- same_while_running (gets _) _ => apply swr_gets
    | |- same_while_running (CHECK _ _) _ => apply swr_CHECK
    | |- same_while_running (call _ _ _) _ => apply swr_call; assumption
    | |- same_while_running (modify _) _ => apply swr_modify; intros; reflexivity
    | |- same_while_running (when _ _) _ => apply swr_when
    | |- same_while_running (bind _ _) _ => apply swr_bind
    | |- same_while_running (if ?b then _ else _) _ => destruct b
    | |- same_while_running (InitializeFlags _ _ _) _ => unfold InitializeFlags
    | |- same_while_running (SetCommonFlagsDefaults _ _) _ =>
        unfold SetCommonFlagsDefaults
    | |- same_while_running (GetEnv _ _ _) _ => unfold GetEnv
    | |- same_while_running (OverrideCommonFlags _ _ _) _ =>
        unfold OverrideCommonFlags
    | |- same_while_running (Flags_SetDefaults _ _) _ => unfold Flags_SetDefaults
    | |- same_while_running (MaybeCallLsanDefaultOptions _ _) _ =>
        unfold MaybeCallLsanDefaultOptions
    | |- same_while_running (EM_ASM_INT_LSAN_OPTIONS _ _) _ =>
        unfold EM_ASM_INT_LSAN_OPTIONS
    | |- same_while_running (parser_ParseString _ _ _ _) _ =>
        unfold parser_ParseString
    | |- same_while_running (SetVerbosity _ _ _) _ => unfold SetVerbosity
    | |- same_while_running Verbosity _ => unfold Verbosity
    | |- same_while_running (sanitizer_set_report_path _ _ _) _ =>
        unfold sanitizer_set_report_path
    | |- same_while_running (InitializeThreadRegistry _ _) _ =>
        unfold InitializeThreadRegistry
    | |- same_while_running (ThreadCreate _ _ _ _ _) _ => unfold ThreadCreate
    | |- same_while_running (GetTid _ _) _ => unfold GetTid
    | |- same_while_running (ThreadStart _ _ _ _) _ => unfold ThreadStart
    | |- same_while_running (SetCurrentThread _ _ _) _ => unfold SetCurrentThread
    | |- same_while_running (Atexit _ _ _) _ => unfold Atexit
    | |- same_while_running (InitializeCoverage _ _ _ _) _ =>
        unfold InitializeCoverage
    end).

Section Reentry.

Variable pf : Platform.
Variable host : Host.

Lemma lsan_init_body_reenter r1 r2 :
  dies_while_running r1 -> dies_while_running r2 ->
  forall s, lsan_init_body pf host r1 s = lsan_init_body pf host r2 s.
Proof.
  intros H1 H2.
  unfold lsan_init_body.
  apply same_bind_left; intros running.
  apply same_bind_left; intros _.
  apply same_bind_left; intros inited.
  destruct inited; [reflexivity|].
  apply same_enter.
  repeat (apply same_result_bind; [ swr | intros ]).
  intros w Hw. reflexivity.
Qed.

Lemma lsan_init_fuel_dies n : dies_while_running (lsan_init_fuel pf host n).
Proof.
  intros s Hs. destruct n; simpl; unfold lsan_init_body, bind, gets, CHECK;
    rewrite Hs; reflexivity.
Qed.

(** More fuel changes nothing: a nested call dies before it could nest
    another one. *)
Lemma lsan_init_fuel_enough n s :
  lsan_init_fuel pf host (S n) s = __lsan_init pf host s.
Proof.
  unfold __lsan_init. simpl.
  apply lsan_init_body_reenter;
    [apply lsan_init_fuel_dies | apply (lsan_init_fuel_dies 0)].
Qed.

End Reentry.

(** ** Symbolic execution *)

Lemma os_bind {A B} (m : M A) (k : A -> M B) s R D :
  outcome_spec m s (fun a s' => outcome_spec (k a) s' R D) D ->
  outcome_spec (bind m k) s R D.
Proof. unfold outcome_spec, bind. destruct (m s); auto. Qed.

Lemma os_ret {A} (a : A) s (R : A -> World -> Prop) D :
  R a s -> outcome_spec (ret a) s R D.
Proof. auto. Qed.

Lemma os_gets {A} (f : World -> A) s (R : A -> World -> Prop) D v :
  v = f s -> R v s -> outcome_spec (gets f) s R D.
Proof. intros ->. auto. Qed.

Lemma os_modify (f : World -> World) s (R : unit -> World -> Prop) D s' :
  s' = f s -> R tt s' -> outcome_spec (modify f) s R D.
Proof. intros ->. auto. Qed.

Lemma os_CHECK b msg s (R : unit -> World -> Prop) (D : string -> World -> Prop) :
  (b = true -> R tt s) -> (b = false -> D msg s) ->
  outcome_spec (CHECK b msg) s R D.
Proof. unfold outcome_spec, CHECK. destruct b; auto. Qed.

Lemma os_conseq {A} (m : M A) s (R R' : A -> World -> Prop)
    (D D' : string -> World -> Prop) :
  outcome_spec m s R' D' ->
  (forall a s', R' a s' -> R a s') ->
  (forall msg w, D' msg w -> D msg w) ->
  outcome_spec m s R D.
Proof. unfold outcome_spec. destruct (m s); auto. Qed.

Lemma os_call host reenter c s (R : unit -> World -> Prop)
    (D : string -> World -> Prop) s' :
  dies_while_running reenter ->
  s' = set_calls (calls s ++ [c]) s ->
  lsan_init_is_running s = true ->
  (reenters host c = true -> D msg_init_is_running s') ->
  (reenters host c = false -> R tt s') ->
  outcome_spec (call host reenter c) s R D.
Proof.
  intros Hdies -> Hrun HD HR. unfold outcome_spec, call, bind, modify, when.
  destruct (reenters host c).
  - rewrite Hdies by exact Hrun. auto.
  - unfold ret. auto.
Qed.

(** States are kept as explicit records. *)
Ltac world_norm :=
  cbv beta delta [
    set_lsan_inited set_lsan_init_is_running set_SanitizerToolName set_config
    set_snapshot_stack set_current_verbosity set_report_path set_thread_registry
    set_current_thread_tid set_atexit_callbacks set_coverage_initialized set_calls
    common_flags registry_contexts InitializeFlags_effect bootstrap_thread];
  cbn [lsan_inited lsan_init_is_running SanitizerToolName config snapshot_stack
    current_verbosity report_path thread_registry current_thread_tid
    atexit_callbacks coverage_initialized calls
    common_flags_dont_use lsan_flags unknown_flags].

Ltac os_unfold :=
  lazymatch goal with
  | |- outcome_spec (InitializeFlags _ _ _) _ _ _ => unfold InitializeFlags
  | |- outcome_spec (SetCommonFlagsDefaults _ _) _ _ _ =>
      unfold SetCommonFlagsDefaults
  | |- outcome_spec (GetEnv _ _ _) _ _ _ => unfold GetEnv
  | |- outcome_spec (OverrideCommonFlags _ _ _) _ _ _ => unfold OverrideCommonFlags
  | |- outcome_spec (Flags_SetDefaults _ _) _ _ _ => unfold Flags_SetDefaults
  | |- outcome_spec (MaybeCallLsanDefaultOptions _ _) _ _ _ =>
      unfold MaybeCallLsanDefaultOptions
  | |- outcome_spec (EM_ASM_INT_LSAN_OPTIONS _ _) _ _ _ =>
      unfold EM_ASM_INT_LSAN_OPTIONS
  | |- outcome_spec (parser_ParseString _ _ _ _) _ _ _ => unfold parser_ParseString
  | |- outcome_spec (SetVerbosity _ _ _) _ _ _ => unfold SetVerbosity
  | |- outcome_spec Verbosity _ _ _ => unfold Verbosity
  | |- outcome_spec (sanitizer_set_report_path _ _ _) _ _ _ =>
      unfold sanitizer_set_report_path
  | |- outcome_spec (InitializeThreadRegistry _ _) _ _ _ =>
      unfold InitializeThreadRegistry
  | |- outcome_spec (ThreadCreate _ _ _ _ _) _ _ _ => unfold ThreadCreate
  | |- outcome_spec (GetTid _ _) _ _ _ => unfold GetTid
  | |- outcome_spec (ThreadStart _ _ _ _) _ _ _ => unfold ThreadStart
  | |- outcome_spec (SetCurrentThread _ _ _) _ _ _ => unfold SetCurrentThread
  | |- outcome_spec (Atexit _ _ _) _ _ _ => unfold Atexit
  | |- outcome_spec (InitializeCoverage _ _ _ _) _ _ _ => unfold InitializeCoverage
  end.

(** One step of symbolic execution; [died] closes the goals of the runs
    that abort, [running] proves that the entry point is still running. *)
Ltac os_step died running :=
  lazymatch goal with
  | |- outcome_spec (bind _ _) _ _ _ => apply os_bind
  | |- outcome_spec (ret _) _ _ _ => apply os_ret; cbv beta
  | |- outcome_spec (gets _) _ _ _ =>
      eapply os_gets; [world_norm; reflexivity | cbv beta]
  | |- outcome_spec (modify _) _ _ _ =>
      eapply os_modify; [world_norm; reflexivity | cbv beta]
  | |- outcome_spec (call _ _ _) _ _ _ =>
      eapply os_call;
        [ eassumption | world_norm; reflexivity | running
        | intro; died | intro; cbv beta ]
  | |- outcome_spec (CHECK _ _) _ _ _ =>
      apply os_CHECK; intro; [cbv beta | first [discriminate | died]]
  | |- outcome_spec (if true then ?m else _) ?s ?R ?D =>
      change (outcome_spec m s R D)
  | |- outcome_spec (if false then _ else ?m) ?s ?R ?D =>
      change (outcome_spec m s R D)
  | |- outcome_spec (when (negb ?b) _) _ _ _ =>
      unfold when at 1; destruct b eqn:?; cbn [negb]
  | |- outcome_spec (when ?b _) _ _ _ =>
      unfold when at 1; destruct b eqn:?
  | |- outcome_spec (if negb ?b then _ else _) _ _ _ =>
      destruct b eqn:?; cbn [negb]
  | |- outcome_spec (if ?b then _ else _) _ _ _ => destruct b eqn:?
  | |- outcome_spec (let _ := _ in _) _ _ _ => cbv zeta
  | |- _ => os_unfold
  end.

Ltac rewrite_conds :=
  repeat match goal with H : ?b = _ |- context [?b] => rewrite H end.

Section Execution.

Variable pf : Platform.
Variable host : Host.
Variable reenter : M unit.
Hypothesis reenter_dies : dies_while_running reenter.

(** [InitializeFlags], run while the entry point is running, either returns
    with its effect or dies in a re-entrant call. *)
Lemma InitializeFlags_outcome s :
  lsan_init_is_running s = true ->
  outcome_spec (InitializeFlags pf host reenter) s
    (fun _ s' =>
       s' = InitializeFlags_effect pf host s /\
       Forall (fun c => reenters host c = false)
         (InitializeFlags_calls pf (common_flags s')))
    (fun msg w =>
       msg = msg_init_is_running /\ lsan_init_is_running w = true /\
       lsan_inited w = lsan_inited s /\ exists c, reenters host c = true).
Proof.
  intros Hrun.
  repeat os_step
    ltac:(repeat split; first [reflexivity | assumption | eauto])
    ltac:(first [assumption | reflexivity]).
  all: unfold InitializeFlags_effect, InitializeFlags_calls, resolved_config,
    default_config, tool_defaults, lsan_parser, platform_options,
    embedded_options, common_flags.
  all: world_norm; rewrite_conds; cbn [andb negb app];
    repeat rewrite <- app_assoc; cbn [app].
  all: (split; [reflexivity | repeat constructor; assumption]).
Qed.

(** A first call of the entry point either completes the bring-up, or dies
    in a re-entrant call, or dies on the identifier of the bootstrap
    thread. *)
Lemma lsan_init_body_outcome s :
  lsan_inited s = false -> lsan_init_is_running s = false ->
  outcome_spec (lsan_init_body pf host reenter) s
    (fun _ s' =>
       s' = bring_up_effect pf host s /\ u32 (registry_reply host) = 0 /\
       Forall (fun c => reenters host c = false)
         (bring_up_calls pf (common_flags s')))
    (fun msg w =>
       lsan_inited w = false /\ lsan_init_is_running w = true /\
       ((msg = msg_init_is_running /\ exists c, reenters host c = true) \/
        (msg = msg_tid_zero /\ u32 (registry_reply host) <> 0))).
Proof.
  intros Hinit Hrun. unfold lsan_init_body.
  repeat
    (rewrite ?Hinit, ?Hrun; cbn [negb];
     lazymatch goal with
     | |- outcome_spec (InitializeFlags _ _ _) _ _ _ =>
         eapply os_conseq;
           [ apply InitializeFlags_outcome; reflexivity
           | intros ? ? [-> ?]; cbv beta
           | intros ? ? (-> & ? & ? & ?); world_norm; eauto 6 ]
     | |- outcome_spec (CHECK (_ =? 0) _) _ _ _ =>
         apply os_CHECK;
           [ let H := fresh "Htid" in
             intro H; apply Z.eqb_eq in H; rewrite ?H; cbv beta
           | let H := fresh "Htid" in
             intro H; apply Z.eqb_neq in H; world_norm; auto 6 ]
     | |- _ =>
         os_step
           ltac:(world_norm; repeat split; eauto 6)
           ltac:(reflexivity)
     end).
  all: match goal with H : Forall _ _ |- _ => revert H end.
  all: unfold bring_up_effect, bring_up_calls; world_norm; rewrite_conds.
  all: cbn [map app start_context tid parent_tid user_id detached Z.eqb].
  all: repeat rewrite <- app_assoc; cbn [app]; rewrite ?app_nil_r; intros Hflags.
  all: split; [reflexivity | split; [reflexivity|]].
  all: repeat (first [ apply Forall_cons; [assumption|] | apply Forall_nil
                     | apply Forall_app; split; [exact Hflags|] ]).
Qed.

End Execution.

(** ** The entry point *)

Section EntryPoint.

Variable pf : Platform.
Variable host : Host.

Lemma lsan_init_when_running s :
  lsan_init_is_running s = true ->
  __lsan_init pf host s = Died msg_init_is_running s.
Proof. apply (lsan_init_fuel_dies pf host 1). Qed.

Lemma lsan_init_when_inited s :
  lsan_init_is_running s = false -> lsan_inited s = true ->
  __lsan_init pf host s = Returned tt s.
Proof.
  intros Hrun Hinit.
  change (__lsan_init pf host s)
    with (lsan_init_body pf host (lsan_init_fuel pf host 0) s).
  cbv beta delta [lsan_init_body bind gets CHECK].
  rewrite Hrun. cbn [negb]. rewrite Hinit. reflexivity.
Qed.

Lemma lsan_init_outcome s :
  lsan_inited s = false -> lsan_init_is_running s = false ->
  outcome_spec (__lsan_init pf host) s
    (fun _ s' =>
       s' = bring_up_effect pf host s /\ u32 (registry_reply host) = 0 /\
       Forall (fun c => reenters host c = false)
         (bring_up_calls pf (common_flags s')))
    (fun msg w =>
       lsan_inited w = false /\ lsan_init_is_running w = true /\
       ((msg = msg_init_is_running /\ exists c, reenters host c = true) \/
        (msg = msg_tid_zero /\ u32 (registry_reply host) <> 0))).
Proof.
  intros Hinit Hrun.
  apply (lsan_init_body_outcome pf host _ (lsan_init_fuel_dies pf host 0) s Hinit Hrun).
Qed.

(** The entry point never runs out of fuel. *)
Lemma lsan_init_has_fuel s : __lsan_init pf host s <> OutOfFuel.
Proof.
  destruct (lsan_init_is_running s) eqn:Hrun.
  - rewrite (lsan_init_when_running s Hrun). discriminate.
  - destruct (lsan_inited s) eqn:Hinit.
    + rewrite (lsan_init_when_inited s Hrun Hinit). discriminate.
    + pose proof (lsan_init_outcome s Hinit Hrun) as H.
      unfold outcome_spec in H. intros E. rewrite E in H. exact H.
Qed.

(** A first call that returns has completed the bring-up. *)
Lemma lsan_init_returned s0 s1 :
  lsan_inited s0 = false ->
  __lsan_init pf host s0 = Returned tt s1 ->
  lsan_init_is_running s0 = false /\
  s1 = bring_up_effect pf host s0 /\
  u32 (registry_reply host) = 0 /\
  Forall (fun c => reenters host c = false) (bring_up_calls pf (common_flags s1)).
Proof.
  intros Hinit Hret.
  destruct (lsan_init_is_running s0) eqn:Hrun.
  - rewrite (lsan_init_when_running s0 Hrun) in Hret. discriminate.
  - split; [reflexivity|].
    pose proof (lsan_init_outcome s0 Hinit Hrun) as H.
    unfold outcome_spec in H. rewrite Hret in H. exact H.
Qed.

(** With a thread registry that answers 0 and collaborators that do not
    call back, a first call returns. *)
Lemma lsan_init_completes s :
  lsan_inited s = false -> lsan_init_is_running s = false ->
  u32 (registry_reply host) = 0 ->
  (forall c, reenters host c = false) ->
  __lsan_init pf host s = Returned tt (bring_up_effect pf host s).
Proof.
  intros Hinit Hrun Hreply Hquiet.
  pose proof (lsan_init_outcome s Hinit Hrun) as H.
  unfold outcome_spec in H.
  destruct (__lsan_init pf host s) as [[] w | msg w | ].
  - destruct H as [-> _]. reflexivity.
  - destruct H as (_ & _ & [[_ [c Hc]] | [_ Hne]]).
    + rewrite Hquiet in Hc. discriminate.
    + contradiction.
  - contradiction.
Qed.

Lemma lsan_init_times_inited n s :
  lsan_inited s = true -> lsan_init_is_running s = false ->
  lsan_init_times pf host n s = Returned tt s.
Proof.
  intros Hinit Hrun. induction n as [|n IH]; [reflexivity|].
  simpl. unfold bind. rewrite (lsan_init_when_inited s Hrun Hinit). exact IH.
Qed.

Lemma lsan_init_times_first n s0 s1 :
  lsan_inited s0 = false ->
  lsan_init_times pf host (S n) s0 = Returned tt s1 ->
  __lsan_init pf host s0 = Returned tt s1.
Proof.
  intros Hinit H. simpl in H. unfold bind in H.
  destruct (__lsan_init pf host s0) as [[] w | msg w | ] eqn:E; try discriminate.
  destruct (lsan_init_returned s0 w Hinit E) as (_ & Hw & _).
  rewrite lsan_init_times_inited in H by (rewrite Hw; reflexivity).
  exact H.
Qed.

End EntryPoint.

(** Every bring-up step is called once in a completed bring-up. *)
Lemma bring_up_calls_once pf cf c :
  In c (bring_up_steps pf) ->
  count_occ Collaborator_eq_dec (bring_up_calls pf cf) c = 1%nat.
Proof.
  unfold bring_up_calls, InitializeFlags_calls, bring_up_steps.
  destruct (SANITIZER_EMSCRIPTEN pf), (negb (verbosity cf =? 0)), (help cf),
    (detect_leaks cf && leak_check_at_exit cf); cbn [app In]; intros H;
    repeat (destruct H as [<- | H]; [reflexivity|]); destruct H.
Qed.

Lemma bring_up_steps_called pf cf c :
  In c (bring_up_steps pf) -> In c (bring_up_calls pf cf).
Proof.
  intros H. apply (count_occ_In Collaborator_eq_dec).
  rewrite (bring_up_calls_once pf cf c H). apply Nat.lt_0_1.
Qed.

(** C1 — the entry point is idempotent.  Once a first call of [__lsan_init]
    has returned, any number [N >= 1] of calls in a row leaves the very state
    of that first call: the state is Completed ([lsan_inited] set,
    [lsan_init_is_running] clear), every bring-up step has been called
    exactly once more than before, and a further call returns at once with
    the state unchanged. *)
Theorem lsan_init_idempotent pf host s0 s1 N :
  lsan_inited s0 = false ->
  __lsan_init pf host s0 = Returned tt s1 ->
  (1 <= N)%nat ->
  lsan_init_times pf host N s0 = Returned tt s1 /\
  lsan_inited s1 = true /\
  lsan_init_is_running s1 = false /\
  (forall c, In c (bring_up_steps pf) ->
             times_called c s1 = S (times_called c s0)) /\
  __lsan_init pf host s1 = Returned tt s1.
Proof.
  intros Hinit Hret HN.
  destruct (lsan_init_returned pf host s0 s1 Hinit Hret) as (Hrun & Hs1 & _ & _).
  assert (Hi1 : lsan_inited s1 = true) by (rewrite Hs1; reflexivity).
  assert (Hr1 : lsan_init_is_running s1 = false) by (rewrite Hs1; reflexivity).
  repeat split; try assumption.
  - destruct N as [|n]; [inversion HN|].
    simpl. unfold bind. rewrite Hret.
    apply lsan_init_times_inited; assumption.
  - intros c Hc. unfold times_called. rewrite Hs1. cbn [calls bring_up_effect].
    rewrite count_occ_app, (bring_up_calls_once pf _ c Hc).
    apply Nat.add_1_r.
  - apply lsan_init_when_inited; assumption.
Qed.

Lemma lsan_init_idempotent_witness :
  lsan_init_times emscripten_platform options_host 3 initial_world =
    Returned tt (bring_up_effect emscripten_platform options_host initial_world) /\
  times_called C_InitializeAllocator
    (bring_up_effect emscripten_platform options_host initial_world) = 1%nat.
Proof.
  assert (Hret : __lsan_init emscripten_platform options_host initial_world =
                 Returned tt (bring_up_effect emscripten_platform options_host
                                initial_world))
    by (vm_compute; reflexivity).
  destruct (lsan_init_idempotent emscripten_platform options_host initial_world
              _ 3 eq_refl Hret (le_S _ _ (le_S _ _ (le_n 1))))
    as (H3 & _ & _ & Hcount & _).
  split; [exact H3|].
  apply (Hcount C_InitializeAllocator). cbv. auto 10.
Defined.

(** C2 — re-entrant invocation is fatal.  When the entry point is entered
    while initialization is in progress (either [lsan_init_is_running] is
    already set at entry, or one of the calls a first call makes calls back
    into the entry point), the process dies on a failed check: no bring-up
    completes ([lsan_inited] stays as it was), and a call that finds
    [lsan_init_is_running] set dies on the spot, leaving the state untouched. *)
Theorem lsan_init_reentry_dies pf host s :
  lsan_init_is_running s = true \/
  (lsan_inited s = false /\
   exists c, In c (planned_calls pf host s) /\ reenters host c = true) ->
  exists msg w,
    __lsan_init pf host s = Died msg w /\
    lsan_inited w = lsan_inited s /\
    lsan_init_is_running w = true /\
    (msg = msg_init_is_running \/
     (msg = msg_tid_zero /\ u32 (registry_reply host) <> 0)) /\
    (lsan_init_is_running s = true -> msg = msg_init_is_running /\ w = s).
Proof.
  intros H.
  destruct (lsan_init_is_running s) eqn:Hrun.
  - exists msg_init_is_running, s.
    rewrite (lsan_init_when_running pf host s Hrun).
    repeat split; auto.
  - destruct H as [H | (Hinit & c & Hc & Hre)]; [discriminate|].
    pose proof (lsan_init_outcome pf host s Hinit Hrun) as Hout.
    unfold outcome_spec in Hout.
    destruct (__lsan_init pf host s) as [[] w | msg w | ].
    + destruct Hout as (-> & _ & Hall).
      rewrite Forall_forall in Hall.
      rewrite (Hall c Hc) in Hre. discriminate.
    + exists msg, w. destruct Hout as (Hi & Hr & Hmsg).
      repeat split; try assumption.
      * rewrite Hi, Hinit. reflexivity.
      * destruct Hmsg as [[-> _] | [-> Hne]]; auto.
      * discriminate.
      * discriminate.
    + contradiction.
Qed.

Lemma lsan_init_reentry_dies_witness :
  (exists msg w,
     __lsan_init emscripten_platform quiet_host running_world = Died msg w /\
     msg = msg_init_is_running /\ w = running_world) /\
  (exists msg w,
     __lsan_init emscripten_platform reentrant_host initial_world = Died msg w /\
     lsan_inited w = false /\ msg = msg_init_is_running).
Proof.
  split.
  - destruct (lsan_init_reentry_dies emscripten_platform quiet_host running_world
                (or_introl eq_refl)) as (msg & w & E & _ & _ & _ & Hs).
    exists msg, w. destruct (Hs eq_refl). auto.
  - assert (Hin : In C_InitializeAllocator
                     (planned_calls emscripten_platform reentrant_host initial_world))
      by (apply bring_up_steps_called; cbv; auto 10).
    destruct (lsan_init_reentry_dies emscripten_platform reentrant_host
                initial_world
                (or_intror (conj eq_refl
                   (ex_intro _ C_InitializeAllocator (conj Hin eq_refl)))))
      as (msg & w & E & Hi & _ & [Hm | [_ Hne]] & _).
    + exists msg, w. auto.
    + exfalso. apply Hne. reflexivity.
Defined.

(** C5 — the exit-time leak check is registered once, and only when asked
    for.  After [N >= 1] calls of the entry point in a fresh process, the
    hook has been registered if and only if both [detect_leaks] and
    [leak_check_at_exit] hold in the resolved configuration, and in no case
    more than once: [Atexit] was called once if both hold and never
    otherwise, whatever [N] is. *)
Theorem exit_check_registered_once pf host s0 s1 N :
  lsan_inited s0 = false ->
  (1 <= N)%nat ->
  lsan_init_times pf host N s0 = Returned tt s1 ->
  let both := detect_leaks (common_flags s1) && leak_check_at_exit (common_flags s1) in
  atexit_callbacks s1 =
    atexit_callbacks s0 ++ (if both then [DoLeakCheck] else []) /\
  (times_registered s1 = S (times_registered s0) <-> both = true) /\
  (times_registered s1 <= S (times_registered s0))%nat /\
  times_called C_Atexit s1 =
    (times_called C_Atexit s0 + (if both then 1 else 0))%nat.
Proof.
  intros Hinit HN Htimes both.
  destruct N as [|n]; [inversion HN|].
  pose proof (lsan_init_times_first pf host n s0 s1 Hinit Htimes) as Hret.
  destruct (lsan_init_returned pf host s0 s1 Hinit Hret) as (_ & Hs1 & _ & _).
  assert (Hboth : both =
            detect_leaks (common_flags_dont_use
                            (resolved_config pf host (unknown_flags (config s0)))) &&
            leak_check_at_exit (common_flags_dont_use
                            (resolved_config pf host (unknown_flags (config s0)))))
    by (unfold both; rewrite Hs1; reflexivity).
  assert (Hcb : atexit_callbacks s1 =
                atexit_callbacks s0 ++ (if both then [DoLeakCheck] else []))
    by (rewrite Hboth, Hs1; reflexivity).
  split; [exact Hcb|].
  unfold times_registered. rewrite Hcb, length_app.
  split; [|split].
  - destruct both; simpl; split; intros; try reflexivity; try lia.
  - destruct both; simpl; lia.
  - unfold times_called. rewrite Hs1. cbn [calls bring_up_effect].
    rewrite count_occ_app. f_equal.
    unfold bring_up_calls, InitializeFlags_calls. rewrite <- Hboth.
    destruct (SANITIZER_EMSCRIPTEN pf),
      (negb (verbosity (common_flags_dont_use
               (resolved_config pf host (unknown_flags (config s0)))) =? 0)),
      (help (common_flags_dont_use
               (resolved_config pf host (unknown_flags (config s0))))),
      both; reflexivity.
Qed.

Lemma exit_check_registered_once_witness :
  atexit_callbacks (bring_up_effect emscripten_platform options_host initial_world) =
    [DoLeakCheck] /\
  atexit_callbacks (bring_up_effect linux_platform weakening_host initial_world) = [].
Proof.
  assert (H1 : lsan_init_times emscripten_platform options_host 2 initial_world =
               Returned tt (bring_up_effect emscripten_platform options_host
                              initial_world))
    by (vm_compute; reflexivity).
  assert (H2 : lsan_init_times linux_platform weakening_host 2 initial_world =
               Returned tt (bring_up_effect linux_platform weakening_host
                              initial_world))
    by (vm_compute; reflexivity).
  destruct (exit_check_registered_once emscripten_platform options_host
              initial_world _ 2 eq_refl (le_S _ _ (le_n 1)) H1)
    as (E1 & _).
  destruct (exit_check_registered_once linux_platform weakening_host
              initial_world _ 2 eq_refl (le_S _ _ (le_n 1)) H2)
    as (E2 & _).
  split.
  - rewrite E1. vm_compute. reflexivity.
  - rewrite E2. vm_compute. reflexivity.
Defined.

(** C6 — the bootstrap thread has identifier 0.  A first call of the entry
    point that returns has created one thread record with identifier 0,
    started it and bound it to the calling OS thread, and made it the
    current thread of the caller; and when the thread registry hands out
    any other identifier the process dies, on the check of that identifier
    when no collaborator calls back. *)
Theorem bootstrap_thread_is_zero pf host s0 :
  lsan_inited s0 = false ->
  lsan_init_is_running s0 = false ->
  (forall s1, __lsan_init pf host s0 = Returned tt s1 ->
     thread_registry s1 = Some [bootstrap_thread host] /\
     current_thread_tid s1 = Some 0 /\
     CurrentThreadContext s1 = Some (bootstrap_thread host) /\
     tid (bootstrap_thread host) = 0 /\
     status (bootstrap_thread host) = ThreadStatusRunning /\
     os_id (bootstrap_thread host) = os_tid host) /\
  (u32 (registry_reply host) <> 0 ->
     exists msg w,
       __lsan_init pf host s0 = Died msg w /\
       lsan_inited w = false /\
       ((forall c, reenters host c = false) -> msg = msg_tid_zero)) /\
  (u32 (registry_reply host) = 0 ->
     (forall c, reenters host c = false) ->
     exists s1, __lsan_init pf host s0 = Returned tt s1).
Proof.
  intros Hinit Hrun. split; [|split].
  - intros s1 Hret.
    destruct (lsan_init_returned pf host s0 s1 Hinit Hret) as (_ & -> & _ & _).
    repeat split; reflexivity.
  - intros Hne.
    pose proof (lsan_init_outcome pf host s0 Hinit Hrun) as Hout.
    unfold outcome_spec in Hout.
    destruct (__lsan_init pf host s0) as [[] w | msg w | ].
    + destruct Hout as (_ & Hz & _). contradiction.
    + exists msg, w. destruct Hout as (Hi & _ & Hmsg).
      repeat split; try assumption.
      intros Hquiet. destruct Hmsg as [[_ [c Hc]] | [-> _]]; [|reflexivity].
      rewrite Hquiet in Hc. discriminate.
    + contradiction.
  - intros Hz Hquiet. eexists.
    apply lsan_init_completes; assumption.
Qed.

Lemma bootstrap_thread_is_zero_witness :
  (exists msg w,
     __lsan_init linux_platform bad_registry_host initial_world = Died msg w /\
     msg = msg_tid_zero) /\
  (exists s1, __lsan_init linux_platform quiet_host initial_world = Returned tt s1).
Proof.
  destruct (bootstrap_thread_is_zero linux_platform bad_registry_host
              initial_world eq_refl eq_refl) as (_ & Hbad & _).
  destruct (bootstrap_thread_is_zero linux_platform quiet_host
              initial_world eq_refl eq_refl) as (_ & _ & Hgood).
  split.
  - destruct Hbad as (msg & w & E & _ & Hm); [vm_compute; discriminate|].
    exists msg, w. split; [exact E|]. apply Hm. reflexivity.
  - apply Hgood; reflexivity.
Defined.

(** ** Flag resolution *)

Lemma InitializeFlags_returned pf host n s s' :
  lsan_init_is_running s = true ->
  InitializeFlags pf host (lsan_init_fuel pf host n) s = Returned tt s' ->
  s' = InitializeFlags_effect pf host s.
Proof.
  intros Hrun Hret.
  pose proof (InitializeFlags_outcome pf host _ (lsan_init_fuel_dies pf host n)
                s Hrun) as H.
  unfold outcome_spec in H. rewrite Hret in H. apply H.
Qed.

Lemma InitializeFlags_completes pf host n s :
  lsan_init_is_running s = true ->
  (forall c, reenters host c = false) ->
  InitializeFlags pf host (lsan_init_fuel pf host n) s =
    Returned tt (InitializeFlags_effect pf host s).
Proof.
  intros Hrun Hquiet.
  pose proof (InitializeFlags_outcome pf host _ (lsan_init_fuel_dies pf host n)
                s Hrun) as H.
  unfold outcome_spec in H.
  destruct (InitializeFlags pf host (lsan_init_fuel pf host n) s)
    as [[] w | msg w | ].
  - destruct H as [-> _]. reflexivity.
  - destruct H as (_ & _ & _ & c & Hc). rewrite Hquiet in Hc. discriminate.
  - contradiction.
Qed.

(** C10 — on Emscripten, a resolved allocation-context depth of at most 1
    switches stack snapshots off.  When [InitializeFlags] returns,
    [StackTrace::snapshot_stack] is false if the platform is Emscripten and
    the resolved [malloc_context_size] is [<= 1], and is what it was before
    in every other case; and [InitializeFlags] does return when no
    collaborator calls back. *)
Theorem snapshot_stack_follows_context_size pf host n s :
  lsan_init_is_running s = true ->
  (forall s',
     InitializeFlags pf host (lsan_init_fuel pf host n) s = Returned tt s' ->
     snapshot_stack s' =
       if SANITIZER_EMSCRIPTEN pf && (malloc_context_size (common_flags s') <=? 1)
       then false else snapshot_stack s) /\
  ((forall c, reenters host c = false) ->
   exists s', InitializeFlags pf host (lsan_init_fuel pf host n) s = Returned tt s').
Proof.
  intros Hrun. split.
  - intros s' Hret.
    rewrite (InitializeFlags_returned pf host n s s' Hrun Hret). reflexivity.
  - intros Hquiet. eexists. apply InitializeFlags_completes; assumption.
Qed.

Lemma snapshot_stack_follows_context_size_witness :
  snapshot_stack (InitializeFlags_effect emscripten_platform options_host
                    running_world) = false /\
  snapshot_stack (InitializeFlags_effect emscripten_platform quiet_host
                    running_world) = true /\
  snapshot_stack (InitializeFlags_effect linux_platform options_host
                    running_world) = true.
Proof.
  assert (H1 : InitializeFlags emscripten_platform options_host
                 (lsan_init_fuel emscripten_platform options_host 0) running_world =
               Returned tt (InitializeFlags_effect emscripten_platform options_host
                              running_world))
    by (vm_compute; reflexivity).
  assert (H2 : InitializeFlags emscripten_platform quiet_host
                 (lsan_init_fuel emscripten_platform quiet_host 0) running_world =
               Returned tt (InitializeFlags_effect emscripten_platform quiet_host
                              running_world))
    by (vm_compute; reflexivity).
  assert (H3 : InitializeFlags linux_platform options_host
                 (lsan_init_fuel linux_platform options_host 0) running_world =
               Returned tt (InitializeFlags_effect linux_platform options_host
                              running_world))
    by (vm_compute; reflexivity).
  pose proof (proj1 (snapshot_stack_follows_context_size emscripten_platform
                       options_host 0 running_world eq_refl) _ H1) as E1.
  pose proof (proj1 (snapshot_stack_follows_context_size emscripten_platform
                       quiet_host 0 running_world eq_refl) _ H2) as E2.
  pose proof (proj1 (snapshot_stack_follows_context_size linux_platform
                       options_host 0 running_world eq_refl) _ H3) as E3.
  split; [|split].
  - rewrite E1. vm_compute. reflexivity.
  - rewrite E2. vm_compute. reflexivity.
  - rewrite E3. vm_compute. reflexivity.
Defined.

(** ** The option parser: last writer wins *)

Lemma get_set_common_same f v cf :
  kind_of v = kind_of (get_common f cf) ->
  get_common f (set_common f v cf) = v.
Proof. destruct f, v; simpl; intros H; try discriminate H; reflexivity. Qed.

Lemma get_set_common_other f f' v cf :
  f <> f' -> get_common f (set_common f' v cf) = get_common f cf.
Proof.
  intros Hne. destruct f, f'; try (exfalso; apply Hne; reflexivity);
    destruct v; reflexivity.
Qed.

Lemma FlagKind_eqb_refl k : FlagKind_eqb k k = true.
Proof. destruct k; reflexivity. Qed.

Lemma get_set_flag_same n v old fl :
  get_flag n fl = Some old -> kind_of v = kind_of old ->
  get_flag n (set_flag n v fl) = Some v.
Proof.
  intros Hget Hk. induction fl as [|[m w] fl IH]; [discriminate|].
  simpl in Hget |- *.
  destruct (String.eqb m n) eqn:E.
  - injection Hget as ->. rewrite <- Hk, FlagKind_eqb_refl.
    simpl. rewrite E. reflexivity.
  - simpl. rewrite E. auto.
Qed.

Lemma get_set_flag_other n n' v fl :
  n <> n' -> get_flag n (set_flag n' v fl) = get_flag n fl.
Proof.
  intros Hne. induction fl as [|[m w] fl IH]; simpl; [reflexivity|].
  destruct (String.eqb m n') eqn:E'; simpl.
  - apply String.eqb_eq in E'. subst m.
    destruct (String.eqb n' n) eqn:E.
    + apply String.eqb_eq in E. congruence.
    + destruct (FlagKind_eqb (kind_of w) (kind_of v)); simpl; rewrite E;
        reflexivity.
  - rewrite IH. reflexivity.
Qed.

Lemma read_write_same t v old c :
  read_flag t c = Some old -> kind_of v = kind_of old ->
  read_flag t (write_flag t v c) = Some v.
Proof.
  destruct t as [f|n]; simpl.
  - intros [= <-] Hk. f_equal. now apply get_set_common_same.
  - apply get_set_flag_same.
Qed.

Lemma read_write_other t t' v c :
  t <> t' -> read_flag t (write_flag t' v c) = read_flag t c.
Proof.
  intros Hne. destruct t as [f|n], t' as [f'|n']; simpl; try reflexivity.
  - f_equal. apply get_set_common_other. congruence.
  - apply get_set_flag_other. congruence.
Qed.

Lemma read_add_unknown t name c : read_flag t (add_unknown name c) = read_flag t c.
Proof. destruct t; reflexivity. Qed.

Lemma parse_value_kind k text v : parse_value k text = Some v -> kind_of v = k.
Proof.
  destruct k; simpl.
  - destruct (parse_bool text); intros [= <-]; reflexivity.
  - destruct (parse_int text); intros [= <-]; reflexivity.
  - intros [= <-]; reflexivity.
Qed.

Lemma assigned_by_kind key k tok v : assigned_by key k tok = Some v -> kind_of v = k.
Proof.
  unfold assigned_by. destruct (split_assignment tok) as [[name text]|]; [|discriminate].
  destruct (String.eqb name key); [|discriminate]. apply parse_value_kind.
Qed.

Lemma last_assigned_kind key k toks v :
  last_assigned key k toks = Some v -> kind_of v = k.
Proof.
  revert v. induction toks as [|tok rest IH]; simpl; intros v; [discriminate|].
  destruct (last_assigned key k rest); [intros [= <-]; auto|].
  apply assigned_by_kind.
Qed.

Section ParserFacts.

Variable delim : ascii -> bool.
Variable p : FlagParser.
Hypothesis names_ok : parser_names_ok p.

(** What one token does to the flag registered under [key]. *)
Lemma parse_flag_read key t v0 c tok :
  find_flag key p = Some t ->
  read_flag t c = Some v0 ->
  read_flag t (parse_flag p c tok) =
    Some (match assigned_by key (kind_of v0) tok with
          | Some v => v
          | None => v0
          end).
Proof.
  intros Hfind Hread. unfold parse_flag, assigned_by.
  destruct (split_assignment tok) as [[name text]|];
    [|rewrite read_add_unknown; exact Hread].
  destruct (String.eqb name key) eqn:E.
  - apply String.eqb_eq in E. subst name. rewrite Hfind, Hread.
    destruct (parse_value (kind_of v0) text) as [v|] eqn:Ev; [|exact Hread].
    apply (read_write_same t v v0 c Hread). now apply parse_value_kind in Ev.
  - destruct (find_flag name p) as [t'|] eqn:Hfind';
      [|rewrite read_add_unknown; exact Hread].
    destruct (read_flag t' c) as [old|]; [|exact Hread].
    destruct (parse_value (kind_of old) text) as [v|]; [|exact Hread].
    rewrite read_write_other; [exact Hread|].
    intros ->. apply names_ok in Hfind. apply names_ok in Hfind'.
    rewrite <- Hfind, <- Hfind', String.eqb_refl in E. discriminate.
Qed.

Lemma fold_parse_flag_read key t toks : forall v0 c,
  find_flag key p = Some t ->
  read_flag t c = Some v0 ->
  read_flag t (fold_left (parse_flag p) toks c) =
    Some (match last_assigned key (kind_of v0) toks with
          | Some v => v
          | None => v0
          end).
Proof.
  induction toks as [|tok rest IH]; intros v0 c Hfind Hread; simpl; [exact Hread|].
  pose proof (parse_flag_read key t v0 c tok Hfind Hread) as Hstep.
  rewrite (IH _ _ Hfind Hstep).
  destruct (assigned_by key (kind_of v0) tok) as [v|] eqn:Ea.
  - rewrite (assigned_by_kind _ _ _ _ Ea).
    destruct (last_assigned key (kind_of v0) rest); reflexivity.
  - destruct (last_assigned key (kind_of v0) rest); reflexivity.
Qed.

(** A source leaves a key it does not mention as it was, and gives a key it
    mentions the value of its last well-formed mention. *)
Lemma ParseString_read src key t v0 c :
  find_flag key p = Some t ->
  read_flag t c = Some v0 ->
  read_flag t (ParseString delim p src c) =
    Some (match mention delim src key (kind_of v0) with
          | Some v => v
          | None => v0
          end).
Proof.
  intros Hfind Hread. unfold ParseString, mention.
  destruct src as [str|]; [|exact Hread].
  now apply fold_parse_flag_read.
Qed.

(** Storage that no registered key writes is never touched. *)
Lemma parse_flag_untouched t c tok :
  (forall name, find_flag name p <> Some t) ->
  read_flag t (parse_flag p c tok) = read_flag t c.
Proof.
  intros Hnone. unfold parse_flag.
  destruct (split_assignment tok) as [[name text]|]; [|apply read_add_unknown].
  destruct (find_flag name p) as [t'|] eqn:Hfind'; [|apply read_add_unknown].
  destruct (read_flag t' c) as [old|]; [|reflexivity].
  destruct (parse_value (kind_of old) text) as [v|]; [|reflexivity].
  apply read_write_other. intros ->. exact (Hnone name Hfind').
Qed.

Lemma ParseString_untouched src t c :
  (forall name, find_flag name p <> Some t) ->
  read_flag t (ParseString delim p src c) = read_flag t c.
Proof.
  intros Hnone. unfold ParseString. destruct src as [str|]; [|reflexivity].
  generalize (tokens delim str) as toks. intros toks. revert c.
  induction toks as [|tok rest IH]; intros c; simpl; [reflexivity|].
  rewrite IH. now apply parse_flag_untouched.
Qed.

End ParserFacts.

Lemma find_flag_app name p q :
  find_flag name (p ++ q) =
    match find_flag name p with
    | Some t => Some t
    | None => find_flag name q
    end.
Proof.
  induction p as [|[n t] p IH]; simpl; [reflexivity|].
  destruct (String.eqb n name); auto.
Qed.

Lemma find_lsan_flag name (f : Flags) t :
  find_flag name (map (fun nv => (fst nv, LsanTarget (fst nv))) f) = Some t ->
  t = LsanTarget name.
Proof.
  induction f as [|[n v] f IH]; simpl; [discriminate|].
  destruct (String.eqb n name) eqn:E; [|exact IH].
  apply String.eqb_eq in E. subst n. intros [= <-]. reflexivity.
Qed.

Lemma find_common_flag name (l : list CommonFlagId) t :
  find_flag name (map (fun f => (common_flag_name f, CommonTarget f)) l) = Some t ->
  exists f, t = CommonTarget f /\ common_flag_name f = name.
Proof.
  induction l as [|f l IH]; simpl; [discriminate|].
  destruct (String.eqb (common_flag_name f) name) eqn:E; [|exact IH].
  apply String.eqb_eq in E. intros [= <-]. eauto.
Qed.

(** Every key [InitializeFlags] registers is registered under its own name. *)
Lemma lsan_parser_names_ok host : parser_names_ok (lsan_parser host).
Proof.
  intros name t. unfold lsan_parser, RegisterCommonFlags, RegisterLsanFlags.
  rewrite find_flag_app. cbn [app].
  destruct (find_flag name (map _ (lsan_flags_inc host))) as [t'|] eqn:E.
  - intros [= <-]. apply find_lsan_flag in E. subst t'. reflexivity.
  - intros H. apply find_common_flag in H. destruct H as (f & -> & Hf). exact Hf.
Qed.

(** The value of a flag in the resolved configuration. *)
Lemma resolved_config_read pf host unknown key target default :
  find_flag key (lsan_parser host) = Some target ->
  read_flag target (default_config pf host unknown) = Some default ->
  read_flag target (resolved_config pf host unknown) =
    Some (last_writer (option_delimiter host) (embedded_options host)
            (platform_options pf host) key default).
Proof.
  intros Hfind Hdef. unfold resolved_config, last_writer.
  pose proof (ParseString_read (option_delimiter host) (lsan_parser host)
                (lsan_parser_names_ok host) (embedded_options host) key target
                default _ Hfind Hdef) as H1.
  rewrite (ParseString_read (option_delimiter host) (lsan_parser host)
             (lsan_parser_names_ok host) (platform_options pf host) key target
             _ _ Hfind H1).
  destruct (mention (option_delimiter host) (embedded_options host) key
              (kind_of default)) as [v|] eqn:E; [|reflexivity].
  unfold mention in E. destruct (embedded_options host); [|discriminate].
  rewrite (last_assigned_kind _ _ _ _ E). reflexivity.
Qed.

(** A common flag that neither source mentions keeps the tool's default. *)
Lemma common_flag_unmentioned pf host unknown f :
  let k := kind_of (get_common f (tool_defaults pf host)) in
  mention (option_delimiter host) (embedded_options host) (common_flag_name f) k = None ->
  mention (option_delimiter host) (platform_options pf host) (common_flag_name f) k = None ->
  get_common f (common_flags_dont_use (resolved_config pf host unknown)) =
    get_common f (tool_defaults pf host).
Proof.
  intros k He Hp.
  assert (Hdef : read_flag (CommonTarget f) (default_config pf host unknown) =
                 Some (get_common f (tool_defaults pf host))) by reflexivity.
  assert (Hgoal : read_flag (CommonTarget f) (resolved_config pf host unknown) =
                  Some (get_common f (tool_defaults pf host))).
  { destruct (find_flag (common_flag_name f) (lsan_parser host)) as [t|] eqn:E.
    - assert (Hdec : {t = CommonTarget f} + {t <> CommonTarget f})
        by (repeat decide equality).
      destruct Hdec as [-> | Hne].
      + rewrite (resolved_config_read pf host unknown _ _ _ E Hdef).
        unfold last_writer. fold k. rewrite Hp, He. reflexivity.
      + unfold resolved_config.
        rewrite !ParseString_untouched; [exact Hdef | |];
          intros name Hname;
          pose proof (lsan_parser_names_ok host _ _ Hname) as Hn;
          simpl in Hn; subst name; congruence.
    - unfold resolved_config.
      rewrite !ParseString_untouched; [exact Hdef | |];
        intros name Hname;
        pose proof (lsan_parser_names_ok host _ _ Hname) as Hn;
        simpl in Hn; subst name; congruence. }
  simpl in Hgoal. congruence.
Qed.

(** C3 — last writer wins.  For every registered flag key, the
    configuration [InitializeFlags] resolves holds the value of the latest
    source that mentions the key, in the order tool defaults, embedded
    default-options string, environment or platform options string: the
    platform string's value if it mentions the key, otherwise the embedded
    string's value if that one does, otherwise the default. *)
Theorem last_writer_wins pf host n s s' key target default :
  lsan_init_is_running s = true ->
  InitializeFlags pf host (lsan_init_fuel pf host n) s = Returned tt s' ->
  find_flag key (lsan_parser host) = Some target ->
  read_flag target (default_config pf host (unknown_flags (config s))) = Some default ->
  read_flag target (config s') =
    Some (last_writer (option_delimiter host) (embedded_options host)
            (platform_options pf host) key default).
Proof.
  intros Hrun Hret Hfind Hdef.
  rewrite (InitializeFlags_returned pf host n s s' Hrun Hret).
  cbn [config InitializeFlags_effect].
  now apply resolved_config_read.
Qed.

Lemma last_writer_wins_witness :
  let c := config (InitializeFlags_effect emscripten_platform options_host
                     running_world) in
  read_flag (CommonTarget F_verbosity) c = Some (VInt 2) /\
  read_flag (CommonTarget F_exitcode) c = Some (VInt 5) /\
  read_flag (CommonTarget F_detect_leaks) c = Some (VBool true).
Proof.
  assert (Hret : InitializeFlags emscripten_platform options_host
                   (lsan_init_fuel emscripten_platform options_host 0)
                   running_world =
                 Returned tt (InitializeFlags_effect emscripten_platform
                                options_host running_world))
    by (vm_compute; reflexivity).
  pose proof (fun key target default =>
                last_writer_wins emscripten_platform options_host 0 running_world
                  _ key target default eq_refl Hret) as H.
  split; [|split].
  - rewrite (H "verbosity" (CommonTarget F_verbosity) (VInt 0));
      vm_compute; reflexivity.
  - rewrite (H "exitcode" (CommonTarget F_exitcode) (VInt 23));
      vm_compute; reflexivity.
  - rewrite (H "detect_leaks" (CommonTarget F_detect_leaks) (VBool true));
      vm_compute; reflexivity.
Defined.

(** C4, as stated, fails: an options string that assigns the keys lowers
    every value the tool stored.  With [LSAN_OPTIONS] set to
    [detect_leaks=0:malloc_context_size=5:exitcode=0:intercept_tls_get_addr=0]
    the resolved configuration has leak detection off, depth 5, exit code 0
    and TLS interception off. *)
Lemma tool_values_can_be_overridden :
  exists s',
    InitializeFlags linux_platform weakening_host
      (lsan_init_fuel linux_platform weakening_host 0) running_world =
      Returned tt s' /\
    malloc_context_size (common_flags s') <> 30 /\
    intercept_tls_get_addr (common_flags s') <> true /\
    detect_leaks (common_flags s') <> true /\
    exitcode (common_flags s') <> 23.
Proof.
  eexists. split; [vm_compute; reflexivity|].
  vm_compute. repeat split; discriminate.
Qed.

(** C4, amended — the tool's values are defaults the option strings can
    override.  [InitializeFlags] stores depth 30, TLS interception on, leak
    detection on and exit code 23 (which is not 0) before it reads any
    options string; each of them holds in the resolved configuration when
    neither options string mentions its key. *)
Theorem tool_values_are_defaults pf host n s s' :
  lsan_init_is_running s = true ->
  InitializeFlags pf host (lsan_init_fuel pf host n) s = Returned tt s' ->
  let unmentioned key k :=
    mention (option_delimiter host) (embedded_options host) key k = None /\
    mention (option_delimiter host) (platform_options pf host) key k = None in
  (malloc_context_size (tool_defaults pf host) = 30 /\
   intercept_tls_get_addr (tool_defaults pf host) = true /\
   detect_leaks (tool_defaults pf host) = true /\
   exitcode (tool_defaults pf host) = 23 /\ 23 <> 0) /\
  (unmentioned "malloc_context_size" KInt ->
   malloc_context_size (common_flags s') = 30) /\
  (unmentioned "intercept_tls_get_addr" KBool ->
   intercept_tls_get_addr (common_flags s') = true) /\
  (unmentioned "detect_leaks" KBool -> detect_leaks (common_flags s') = true) /\
  (unmentioned "exitcode" KInt -> exitcode (common_flags s') = 23).
Proof.
  intros Hrun Hret unmentioned.
  rewrite (InitializeFlags_returned pf host n s s' Hrun Hret).
  unfold common_flags. cbn [config InitializeFlags_effect].
  split; [repeat split; discriminate|].
  repeat split; intros [He Hp].
  - pose proof (common_flag_unmentioned pf host (unknown_flags (config s))
                  F_malloc_context_size He Hp) as H.
    simpl in H. congruence.
  - pose proof (common_flag_unmentioned pf host (unknown_flags (config s))
                  F_intercept_tls_get_addr He Hp) as H.
    simpl in H. congruence.
  - pose proof (common_flag_unmentioned pf host (unknown_flags (config s))
                  F_detect_leaks He Hp) as H.
    simpl in H. congruence.
  - pose proof (common_flag_unmentioned pf host (unknown_flags (config s))
                  F_exitcode He Hp) as H.
    simpl in H. congruence.
Qed.

Lemma tool_values_are_defaults_witness :
  let cf := common_flags (InitializeFlags_effect emscripten_platform options_host
                            running_world) in
  intercept_tls_get_addr cf = true /\ detect_leaks cf = true.
Proof.
  assert (Hret : InitializeFlags emscripten_platform options_host
                   (lsan_init_fuel emscripten_platform options_host 0)
                   running_world =
                 Returned tt (InitializeFlags_effect emscripten_platform
                                options_host running_world))
    by (vm_compute; reflexivity).
  destruct (tool_values_are_defaults emscripten_platform options_host 0
              running_world _ eq_refl Hret) as (_ & _ & Htls & Hdl & _).
  split.
  - apply Htls. split; vm_compute; reflexivity.
  - apply Hdl. split; vm_compute; reflexivity.
Defined.

(** ** Unwind dispatch *)

Section UnwindFacts.

Variable pf : Platform.
Variable Unwind :
  BufferedStackTrace -> Z -> Z -> Z -> Z -> Z -> Z -> bool -> BufferedStackTrace.

(** The bounds [UnwindImpl] works with. *)
Lemma UnwindImpl_fast w this pc bp context request_fast max_depth :
  WillUseFastUnwind pf request_fast = true ->
  let top := match CurrentThreadContext w with
             | Some t => stack_end t
             | None => 0
             end in
  let bottom := match CurrentThreadContext w with
                | Some t => stack_begin t
                | None => 0
                end in
  UnwindImpl pf Unwind w this pc bp context request_fast max_depth =
    if negb (SANITIZER_MIPS pf) || IsValidFrame pf bp top bottom
    then Unwind this max_depth pc bp nullptr top bottom true
    else this.
Proof.
  intros Hfast. unfold UnwindImpl. rewrite Hfast.
  destruct (CurrentThreadContext w); reflexivity.
Qed.

Lemma UnwindImpl_slow w this pc bp context request_fast max_depth :
  WillUseFastUnwind pf request_fast = false ->
  UnwindImpl pf Unwind w this pc bp context request_fast max_depth =
    if negb (SANITIZER_MIPS pf) || IsValidFrame pf bp 0 0
    then Unwind this max_depth pc 0 context 0 0 false
    else this.
Proof. intros Hslow. unfold UnwindImpl. rewrite Hslow. reflexivity. Qed.

End UnwindFacts.

(** C7 — on a platform that validates frame pointers, a fast unwind from a
    frame pointer outside the current thread's stack bounds yields no
    frames.  On MIPS, when fast unwinding is used and [IsValidFrame] rejects
    the frame pointer against the bounds recorded for the current thread,
    [UnwindImpl] leaves the stack object as it was, whatever the unwinder
    is (no [Unwind] call is made): a fresh stack stays empty. *)
Theorem fast_unwind_invalid_frame_is_empty pf Unwind w this pc bp context
    request_fast max_depth t :
  SANITIZER_MIPS pf = true ->
  WillUseFastUnwind pf request_fast = true ->
  CurrentThreadContext w = Some t ->
  IsValidFrame pf bp (stack_end t) (stack_begin t) = false ->
  UnwindImpl pf Unwind w this pc bp context request_fast max_depth = this /\
  (trace this = [] ->
   trace (UnwindImpl pf Unwind w this pc bp context request_fast max_depth) = []).
Proof.
  intros Hmips Hfast Hctx Hbad.
  assert (E : UnwindImpl pf Unwind w this pc bp context request_fast max_depth = this).
  { rewrite UnwindImpl_fast by exact Hfast. rewrite Hctx, Hmips, Hbad. reflexivity. }
  split; [exact E|]. rewrite E. auto.
Qed.

Lemma fast_unwind_invalid_frame_is_empty_witness :
  trace (UnwindImpl mips_platform Unwind_recorder
           (bring_up_effect mips_platform quiet_host initial_world)
           empty_stack 100 9000 300 true 10) = [].
Proof.
  refine (proj2 (fast_unwind_invalid_frame_is_empty mips_platform Unwind_recorder
                   (bring_up_effect mips_platform quiet_host initial_world)
                   empty_stack 100 9000 300 true 10 (bootstrap_thread quiet_host)
                   eq_refl eq_refl _ _) eq_refl).
  - vm_compute. reflexivity.
  - vm_compute. reflexivity.
Defined.

(** C8, as stated, fails: with the fast-unwind hint set and no registry
    entry for the current thread, the dispatcher does not unwind from the
    execution context; it unwinds by frame pointers with both stack bounds
    0 and a null context. *)
Lemma fast_unwind_without_thread_is_not_context_based :
  CurrentThreadContext initial_world = None /\
  UnwindImpl linux_platform Unwind_recorder initial_world empty_stack
    100 200 300 true 10 <>
    Unwind_recorder empty_stack 10 100 0 300 0 0 false /\
  UnwindImpl linux_platform Unwind_recorder initial_world empty_stack
    100 200 300 true 10 =
    Unwind_recorder empty_stack 10 100 200 nullptr 0 0 true.
Proof.
  split; [reflexivity|]. split; [|reflexivity].
  vm_compute. discriminate.
Qed.

(** C8, amended — an unresolvable registry entry is tolerated by unwinding
    with zero bounds.  For a request with the fast-unwind hint set and no
    registry entry for the current thread: when the platform uses fast
    unwinding for the request, the dispatcher unwinds by frame pointers from
    [bp] with both stack bounds 0 and a null context (on MIPS only if
    [IsValidFrame bp 0 0], and otherwise it makes no [Unwind] call); it
    unwinds from the supplied context only when the platform does not use
    fast unwinding. *)
Theorem fast_unwind_without_thread pf Unwind w this pc bp context max_depth :
  CurrentThreadContext w = None ->
  (WillUseFastUnwind pf true = true ->
   UnwindImpl pf Unwind w this pc bp context true max_depth =
     if negb (SANITIZER_MIPS pf) || IsValidFrame pf bp 0 0
     then Unwind this max_depth pc bp nullptr 0 0 true
     else this) /\
  (WillUseFastUnwind pf true = false ->
   UnwindImpl pf Unwind w this pc bp context true max_depth =
     if negb (SANITIZER_MIPS pf) || IsValidFrame pf bp 0 0
     then Unwind this max_depth pc 0 context 0 0 false
     else this).
Proof.
  intros Hctx. split; intros H.
  - rewrite UnwindImpl_fast by exact H. rewrite Hctx. reflexivity.
  - apply UnwindImpl_slow. exact H.
Qed.

Lemma fast_unwind_without_thread_witness :
  UnwindImpl linux_platform Unwind_recorder initial_world empty_stack
    100 200 300 true 10 =
    Unwind_recorder empty_stack 10 100 200 nullptr 0 0 true.
Proof.
  exact (proj1 (fast_unwind_without_thread linux_platform Unwind_recorder
                  initial_world empty_stack 100 200 300 10 eq_refl) eq_refl).
Defined.

(** C9, as stated, fails on a platform that validates frame pointers: the
    validation comes before the choice of the unwinder and uses the frame
    pointer.  On MIPS a request that does not use fast unwinding, made with
    frame pointer 0, gets no unwinding at all. *)
Lemma context_unwind_skipped_on_invalid_frame :
  WillUseFastUnwind mips_platform false = false /\
  UnwindImpl mips_platform Unwind_recorder initial_world empty_stack
    100 0 300 false 10 <>
    Unwind_recorder empty_stack 10 100 0 300 0 0 false /\
  UnwindImpl mips_platform Unwind_recorder initial_world empty_stack
    100 0 300 false 10 = empty_stack.
Proof.
  split; [reflexivity|]. split; [|reflexivity].
  vm_compute. discriminate.
Qed.

(** C9, amended — without fast unwinding the frames come from the execution
    context alone, once the frame pointer has passed the platform's
    validation.  For a request that does not use fast unwinding, on a
    platform that does not validate frame pointers, or on MIPS with a frame
    pointer that [IsValidFrame] accepts against zero bounds, the dispatcher
    calls the unwinder with the supplied context, frame pointer 0 and
    bounds 0, so that two such requests that differ only in the frame
    pointer, or in the state of the thread registry, produce the same
    frames; on MIPS with a frame pointer that fails the validation no
    unwinding is done. *)
Theorem context_unwind_ignores_frame_pointer pf Unwind w this pc bp context
    request_fast max_depth :
  WillUseFastUnwind pf request_fast = false ->
  (SANITIZER_MIPS pf = false \/ IsValidFrame pf bp 0 0 = true ->
   UnwindImpl pf Unwind w this pc bp context request_fast max_depth =
     Unwind this max_depth pc 0 context 0 0 false /\
   forall w' bp',
     SANITIZER_MIPS pf = false \/ IsValidFrame pf bp' 0 0 = true ->
     UnwindImpl pf Unwind w' this pc bp' context request_fast max_depth =
     UnwindImpl pf Unwind w this pc bp context request_fast max_depth) /\
  (SANITIZER_MIPS pf = true -> IsValidFrame pf bp 0 0 = false ->
   UnwindImpl pf Unwind w this pc bp context request_fast max_depth = this).
Proof.
  intros Hslow.
  assert (Hok : forall w0 bp0,
            SANITIZER_MIPS pf = false \/ IsValidFrame pf bp0 0 0 = true ->
            UnwindImpl pf Unwind w0 this pc bp0 context request_fast max_depth =
            Unwind this max_depth pc 0 context 0 0 false).
  { intros w0 bp0 H. rewrite UnwindImpl_slow by exact Hslow.
    destruct H as [-> | ->]; [reflexivity|].
    rewrite orb_true_r. reflexivity. }
  split.
  - intros H. split; [now apply Hok|].
    intros w' bp' H'. rewrite (Hok w bp H). now apply Hok.
  - intros Hmips Hbad. rewrite UnwindImpl_slow by exact Hslow.
    rewrite Hmips, Hbad. reflexivity.
Qed.

Lemma context_unwind_ignores_frame_pointer_witness :
  UnwindImpl linux_platform Unwind_recorder initial_world empty_stack
    100 200 300 false 10 =
  UnwindImpl linux_platform Unwind_recorder
    (bring_up_effect linux_platform quiet_host initial_world) empty_stack
    100 7000 300 false 10.
Proof.
  symmetry.
  exact (proj2 (proj1 (context_unwind_ignores_frame_pointer linux_platform
                         Unwind_recorder initial_world empty_stack 100 200 300
                         false 10 eq_refl) (or_introl eq_refl))
           (bring_up_effect linux_platform quiet_host initial_world) 7000
           (or_introl eq_refl)).
Defined.

(** ** Where a first call dies *)

(** Membership in a list of calls written with [++] and conditionals. *)
Ltac solve_in :=
  cbn [app In];
  first [ left; reflexivity
        | assumption
        | right; solve_in
        | apply in_or_app; left; assumption
        | apply in_or_app; right; solve_in ].

Ltac world_norm_in H :=
  cbv beta delta [
    set_lsan_inited set_lsan_init_is_running set_SanitizerToolName set_config
    set_snapshot_stack set_current_verbosity set_report_path set_thread_registry
    set_current_thread_tid set_atexit_callbacks set_coverage_initialized set_calls
    common_flags registry_contexts InitializeFlags_effect bootstrap_thread] in H;
  cbn [lsan_inited lsan_init_is_running SanitizerToolName config snapshot_stack
    current_verbosity report_path thread_registry current_thread_tid
    atexit_callbacks coverage_initialized calls
    common_flags_dont_use lsan_flags unknown_flags] in H.

Section DeathPoint.

Variable pf : Platform.
Variable host : Host.
Variable reenter : M unit.
Hypothesis reenter_dies : dies_while_running reenter.

Lemma InitializeFlags_death s :
  lsan_init_is_running s = true ->
  outcome_spec (InitializeFlags pf host reenter) s
    (fun _ s' => s' = InitializeFlags_effect pf host s)
    (fun msg w =>
       msg = msg_init_is_running /\
       lsan_inited w = lsan_inited s /\ lsan_init_is_running w = true /\
       died_in_call host
         (InitializeFlags_calls pf
            (common_flags_dont_use
               (resolved_config pf host (unknown_flags (config s))))) w).
Proof.
  intros Hrun.
  unfold died_in_call, InitializeFlags_calls, resolved_config, default_config,
    tool_defaults, lsan_parser, platform_options, embedded_options.
  repeat os_step
    ltac:(split; [reflexivity|]; split; [reflexivity|]; split; [assumption|];
          do 2 eexists; split; [world_norm; reflexivity|];
          split; [assumption|]; rewrite_conds; cbn [negb]; solve_in)
    ltac:(first [assumption | reflexivity]).
  all: unfold InitializeFlags_effect, InitializeFlags_calls, resolved_config,
    default_config, tool_defaults, lsan_parser, platform_options,
    embedded_options, common_flags.
  all: world_norm; rewrite_conds; cbn [andb negb app];
    repeat rewrite <- app_assoc; cbn [app].
  all: reflexivity.
Qed.

Lemma lsan_init_body_death s :
  lsan_inited s = false -> lsan_init_is_running s = false ->
  outcome_spec (lsan_init_body pf host reenter) s
    (fun _ _ => True)
    (fun msg w =>
       lsan_inited w = false /\ lsan_init_is_running w = true /\
       ((msg = msg_init_is_running /\
         died_in_call host (planned_calls pf host s) w) \/
        (msg = msg_tid_zero /\ died_on_tid host s w))).
Proof.
  intros Hinit Hrun.
  unfold lsan_init_body, died_in_call, died_on_tid, created_thread,
    planned_calls, bring_up_calls.
  repeat
    (rewrite ?Hinit, ?Hrun; cbn [negb];
     lazymatch goal with
     | |- outcome_spec (InitializeFlags _ _ _) _ _ _ =>
         eapply os_conseq;
           [ apply InitializeFlags_death; reflexivity
           | let E := fresh "E" in intros ? ? E; rewrite E; clear E; cbv beta
           | intros ? ? (-> & Hi & Hr & pre & c & Hcalls & Hre & Hin);
             world_norm_in Hin; world_norm_in Hi;
             split; [exact Hi|]; split; [exact Hr|]; left;
             split; [reflexivity|]; exists pre, c;
             split; [exact Hcalls|]; split; [exact Hre|]; solve_in ]
     | |- outcome_spec (CHECK (_ =? 0) _) _ _ _ =>
         apply os_CHECK;
           [ let H := fresh "Htid" in
             intro H; apply Z.eqb_eq in H; rewrite ?H; cbv beta
           | let H := fresh "Htid" in
             intro H; apply Z.eqb_neq in H; world_norm;
             split; [reflexivity|]; split; [reflexivity|]; right;
             split; [reflexivity|];
             repeat split; try reflexivity; try assumption;
             eexists; reflexivity ]
     | |- _ =>
         os_step
           ltac:(world_norm; split; [reflexivity|]; split; [reflexivity|]; left;
                 split; [reflexivity|];
                 do 2 eexists; split; [reflexivity|];
                 split; [assumption|]; rewrite_conds; cbn [negb]; solve_in)
           ltac:(reflexivity)
     end).
  all: exact I.
Qed.

End DeathPoint.

(** ** What a first call leaves behind *)

Section FirstCall.

Variable pf : Platform.
Variable host : Host.

Lemma lsan_init_death s :
  lsan_inited s = false -> lsan_init_is_running s = false ->
  outcome_spec (__lsan_init pf host) s
    (fun _ _ => True)
    (fun msg w =>
       lsan_inited w = false /\ lsan_init_is_running w = true /\
       ((msg = msg_init_is_running /\
         died_in_call host (planned_calls pf host s) w) \/
        (msg = msg_tid_zero /\ died_on_tid host s w))).
Proof.
  intros Hinit Hrun.
  apply (lsan_init_body_death pf host _ (lsan_init_fuel_dies pf host 0) s Hinit Hrun).
Qed.

Lemma times_called_effect c s :
  times_called c (bring_up_effect pf host s) =
    (times_called c s +
     count_occ Collaborator_eq_dec (planned_calls pf host s) c)%nat.
Proof. unfold times_called. cbn [calls bring_up_effect]. apply count_occ_app. Qed.

Lemma times_called_flags_effect c s :
  times_called c (InitializeFlags_effect pf host s) =
    (times_called c s +
     count_occ Collaborator_eq_dec
       (InitializeFlags_calls pf
          (common_flags_dont_use
             (resolved_config pf host (unknown_flags (config s))))) c)%nat.
Proof. unfold times_called. cbn [calls InitializeFlags_effect]. apply count_occ_app. Qed.

End FirstCall.

(** X1 — the bring-up runs in the order of the source.  The calls a
    completed first call of [__lsan_init] adds to the log are, in this
    order: binary name, CVE guard, the calls of [InitializeFlags], common
    LSan, allocator, malloc replacement, TLS size, interceptors, thread
    registry, deadly-signal handlers (not on Emscripten), [ThreadCreate],
    [GetTid], [ThreadStart], [SetCurrentThread], [Atexit] (if asked for) and
    coverage. *)
Theorem bring_up_order pf host s0 s1 :
  lsan_inited s0 = false ->
  __lsan_init pf host s0 = Returned tt s1 ->
  calls s1 = calls s0 ++ bring_up_calls pf (common_flags s1).
Proof.
  intros Hinit Hret.
  destruct (lsan_init_returned pf host s0 s1 Hinit Hret) as (_ & -> & _ & _).
  reflexivity.
Qed.

Lemma bring_up_order_witness :
  calls (bring_up_effect emscripten_platform quiet_host initial_world) =
    [C_CacheBinaryName; C_AvoidCVE_2016_2143; C_SetCommonFlagsDefaults;
     C_OverrideCommonFlags; C_Flags_SetDefaults; C_RegisterLsanFlags;
     C_RegisterCommonFlags; C_MaybeCallLsanDefaultOptions; C_ParseString;
     C_EM_ASM_INT; C_ParseString; C_emscripten_builtin_free; C_SetVerbosity;
     C_sanitizer_set_report_path; C_InitCommonLsan; C_InitializeAllocator;
     C_ReplaceSystemMalloc; C_InitTlsSize; C_InitializeInterceptors;
     C_InitializeThreadRegistry; C_ThreadCreate; C_GetTid; C_ThreadStart;
     C_SetCurrentThread; C_Atexit; C_InitializeCoverage].
Proof.
  assert (Hret : __lsan_init emscripten_platform quiet_host initial_world =
                 Returned tt (bring_up_effect emscripten_platform quiet_host
                                initial_world))
    by (vm_compute; reflexivity).
  rewrite (bring_up_order emscripten_platform quiet_host initial_world _
             eq_refl Hret).
  vm_compute. reflexivity.
Defined.

(** X2 — deadly-signal handlers are installed everywhere but on
    Emscripten.  A completed first call has called
    [InstallDeadlySignalHandlers] once on a platform with signals and not at
    all on Emscripten. *)
Theorem deadly_signal_handlers_by_platform pf host s0 s1 :
  lsan_inited s0 = false ->
  __lsan_init pf host s0 = Returned tt s1 ->
  times_called C_InstallDeadlySignalHandlers s1 =
    (times_called C_InstallDeadlySignalHandlers s0 +
     (if SANITIZER_EMSCRIPTEN pf then 0 else 1))%nat.
Proof.
  intros Hinit Hret.
  destruct (lsan_init_returned pf host s0 s1 Hinit Hret) as (_ & -> & _ & _).
  rewrite times_called_effect. f_equal.
  unfold planned_calls, bring_up_calls, InitializeFlags_calls.
  destruct (SANITIZER_EMSCRIPTEN pf), (negb (verbosity _ =? 0)), (help _),
    (detect_leaks _ && leak_check_at_exit _); reflexivity.
Qed.

Lemma deadly_signal_handlers_by_platform_witness :
  times_called C_InstallDeadlySignalHandlers
    (bring_up_effect emscripten_platform quiet_host initial_world) = 0%nat /\
  times_called C_InstallDeadlySignalHandlers
    (bring_up_effect linux_platform quiet_host initial_world) = 1%nat.
Proof.
  assert (H1 : __lsan_init emscripten_platform quiet_host initial_world =
               Returned tt (bring_up_effect emscripten_platform quiet_host
                              initial_world))
    by (vm_compute; reflexivity).
  assert (H2 : __lsan_init linux_platform quiet_host initial_world =
               Returned tt (bring_up_effect linux_platform quiet_host
                              initial_world))
    by (vm_compute; reflexivity).
  split.
  - exact (deadly_signal_handlers_by_platform emscripten_platform quiet_host
             initial_world _ eq_refl H1).
  - exact (deadly_signal_handlers_by_platform linux_platform quiet_host
             initial_world _ eq_refl H2).
Defined.

(** X3 — a first call records the tool's name and starts coverage with the
    resolved flags.  After a completed first call [SanitizerToolName] is
    [LeakSanitizer] and [InitializeCoverage] has been given the resolved
    [coverage] and [coverage_dir]. *)
Theorem tool_name_and_coverage pf host s0 s1 :
  lsan_inited s0 = false ->
  __lsan_init pf host s0 = Returned tt s1 ->
  SanitizerToolName s1 = Some "LeakSanitizer" /\
  coverage_initialized s1 =
    Some (coverage (common_flags s1), coverage_dir (common_flags s1)).
Proof.
  intros Hinit Hret.
  destruct (lsan_init_returned pf host s0 s1 Hinit Hret) as (_ & -> & _ & _).
  split; reflexivity.
Qed.

Lemma tool_name_and_coverage_witness :
  coverage_initialized (bring_up_effect linux_platform quiet_host initial_world) =
    Some (false, Some ".").
Proof.
  assert (Hret : __lsan_init linux_platform quiet_host initial_world =
                 Returned tt (bring_up_effect linux_platform quiet_host
                                initial_world))
    by (vm_compute; reflexivity).
  rewrite (proj2 (tool_name_and_coverage linux_platform quiet_host initial_world
                    _ eq_refl Hret)).
  vm_compute. reflexivity.
Defined.



(** X5 — a call that dies on re-entry dies inside the collaborator that
    called back.  When a first call dies on the check of
    [lsan_init_is_running], the last call logged is a call of the bring-up
    sequence to a collaborator that re-enters; nothing after it has run and
    [lsan_inited] is still false. *)
Theorem reentrant_death_point pf host s w :
  lsan_inited s = false -> lsan_init_is_running s = false ->
  __lsan_init pf host s = Died msg_init_is_running w ->
  died_in_call host (planned_calls pf host s) w /\
  lsan_inited w = false /\ lsan_init_is_running w = true.
Proof.
  intros Hinit Hrun Hdied.
  pose proof (lsan_init_death pf host s Hinit Hrun) as H.
  unfold outcome_spec in H. rewrite Hdied in H.
  destruct H as (Hi & Hr & [[_ Hcall] | [Hmsg _]]).
  - auto.
  - discriminate Hmsg.
Qed.

Lemma reentrant_death_point_witness :
  exists w pre,
    __lsan_init linux_platform reentrant_host initial_world =
      Died msg_init_is_running w /\
    calls w = pre ++ [C_InitializeAllocator].
Proof.
  assert (Hd : exists w,
             __lsan_init linux_platform reentrant_host initial_world =
               Died msg_init_is_running w)
    by (eexists; vm_compute; reflexivity).
  destruct Hd as [w Hd].
  destruct (reentrant_death_point linux_platform reentrant_host initial_world w
              eq_refl eq_refl Hd) as ((pre & c & Hcalls & Hre & _) & _).
  exists w, pre. split; [exact Hd|].
  unfold reentrant_host, allocator_reenters in Hre. cbn [reenters] in Hre.
  destruct (Collaborator_eq_dec c C_InitializeAllocator) as [-> | ];
    [exact Hcalls | discriminate].
Defined.

(** X6 — a call that dies on the thread identifier dies right after
    [ThreadCreate].  When a first call dies on [CHECK_EQ(tid, 0)], the
    registry holds the one record that was created, with the non-zero
    identifier and not started; no current thread was set, no exit hook was
    registered, coverage was not started, and [lsan_inited] is still false. *)
Theorem tid_death_state pf host s w :
  lsan_inited s = false -> lsan_init_is_running s = false ->
  __lsan_init pf host s = Died msg_tid_zero w ->
  died_on_tid host s w /\
  lsan_inited w = false /\ lsan_init_is_running w = true.
Proof.
  intros Hinit Hrun Hdied.
  pose proof (lsan_init_death pf host s Hinit Hrun) as H.
  unfold outcome_spec in H. rewrite Hdied in H.
  destruct H as (Hi & Hr & [[Hmsg _] | [_ Htid]]).
  - discriminate Hmsg.
  - auto.
Qed.

Lemma tid_death_state_witness :
  exists w,
    __lsan_init linux_platform bad_registry_host initial_world =
      Died msg_tid_zero w /\
    thread_registry w = Some [created_thread bad_registry_host] /\
    atexit_callbacks w = [].
Proof.
  assert (Hd : exists w,
             __lsan_init linux_platform bad_registry_host initial_world =
               Died msg_tid_zero w)
    by (eexists; vm_compute; reflexivity).
  destruct Hd as [w Hd]. exists w.
  destruct (tid_death_state linux_platform bad_registry_host initial_world w
              eq_refl eq_refl Hd) as ((_ & Hreg & _ & Hexit & _) & _).
  auto.
Defined.

(** X7 — the configuration is resolved once.  After a completed first call,
    calls of the entry point change nothing, whatever the environment,
    options strings, platform or collaborators have become by then: the
    options are not read again. *)
Theorem configuration_resolved_once pf host s0 s1 pf' host' N :
  lsan_inited s0 = false ->
  __lsan_init pf host s0 = Returned tt s1 ->
  lsan_init_times pf' host' N s1 = Returned tt s1.
Proof.
  intros Hinit Hret.
  destruct (lsan_init_returned pf host s0 s1 Hinit Hret) as (_ & -> & _ & _).
  apply lsan_init_times_inited; reflexivity.
Qed.

Lemma configuration_resolved_once_witness :
  lsan_init_times linux_platform weakening_host 2
    (bring_up_effect emscripten_platform quiet_host initial_world) =
  Returned tt (bring_up_effect emscripten_platform quiet_host initial_world).
Proof.
  assert (Hret : __lsan_init emscripten_platform quiet_host initial_world =
                 Returned tt (bring_up_effect emscripten_platform quiet_host
                                initial_world))
    by (vm_compute; reflexivity).
  exact (configuration_resolved_once emscripten_platform quiet_host
           initial_world _ linux_platform weakening_host 2 eq_refl Hret).
Defined.

(** ** What flag resolution does besides resolving flags *)

(** X8 — the environment is read on every platform but Emscripten.  When
    [InitializeFlags] returns it has called [GetEnv] twice (symbolizer path
    and options) on a platform other than Emscripten and never on
    Emscripten, where it has instead fetched the module's options once and
    freed that buffer once; on both it has parsed two option sources. *)
Theorem environment_access_by_platform pf host n s s' :
  lsan_init_is_running s = true ->
  InitializeFlags pf host (lsan_init_fuel pf host n) s = Returned tt s' ->
  let em := SANITIZER_EMSCRIPTEN pf in
  times_called C_GetEnv s' =
    (times_called C_GetEnv s + (if em then 0 else 2))%nat /\
  times_called C_EM_ASM_INT s' =
    (times_called C_EM_ASM_INT s + (if em then 1 else 0))%nat /\
  times_called C_emscripten_builtin_free s' =
    (times_called C_emscripten_builtin_free s + (if em then 1 else 0))%nat /\
  times_called C_ParseString s' = (times_called C_ParseString s + 2)%nat.
Proof.
  intros Hrun Hret em. unfold em.
  rewrite (InitializeFlags_returned pf host n s s' Hrun Hret).
  rewrite !times_called_flags_effect. unfold InitializeFlags_calls.
  destruct (SANITIZER_EMSCRIPTEN pf), (negb (verbosity _ =? 0)), (help _);
    repeat split; reflexivity.
Qed.

Lemma environment_access_by_platform_witness :
  times_called C_GetEnv
    (InitializeFlags_effect emscripten_platform quiet_host running_world) = 0%nat /\
  times_called C_GetEnv
    (InitializeFlags_effect linux_platform quiet_host running_world) = 2%nat.
Proof.
  assert (H1 : InitializeFlags emscripten_platform quiet_host
                 (lsan_init_fuel emscripten_platform quiet_host 0) running_world =
               Returned tt (InitializeFlags_effect emscripten_platform quiet_host
                              running_world))
    by (vm_compute; reflexivity).
  assert (H2 : InitializeFlags linux_platform quiet_host
                 (lsan_init_fuel linux_platform quiet_host 0) running_world =
               Returned tt (InitializeFlags_effect linux_platform quiet_host
                              running_world))
    by (vm_compute; reflexivity).
  split.
  - exact (proj1 (environment_access_by_platform emscripten_platform quiet_host 0
                    running_world _ eq_refl H1)).
  - exact (proj1 (environment_access_by_platform linux_platform quiet_host 0
                    running_world _ eq_refl H2)).
Defined.

(** X9 — the symbolizer path defaults to [LSAN_SYMBOLIZER_PATH], except on
    Emscripten.  When no options string mentions
    [external_symbolizer_path], the resolved path is the value of the
    environment variable [LSAN_SYMBOLIZER_PATH] (null when it is unset) on a
    platform other than Emscripten, and the common default on Emscripten. *)
Theorem symbolizer_path_from_environment pf host n s s' :
  lsan_init_is_running s = true ->
  InitializeFlags pf host (lsan_init_fuel pf host n) s = Returned tt s' ->
  mention (option_delimiter host) (embedded_options host)
    "external_symbolizer_path" KStr = None ->
  mention (option_delimiter host) (platform_options pf host)
    "external_symbolizer_path" KStr = None ->
  external_symbolizer_path (common_flags s') =
    if SANITIZER_EMSCRIPTEN pf
    then external_symbolizer_path (sanitizer_flags_inc host)
    else getenv host "LSAN_SYMBOLIZER_PATH".
Proof.
  intros Hrun Hret He Hp.
  rewrite (InitializeFlags_returned pf host n s s' Hrun Hret).
  unfold common_flags. cbn [config InitializeFlags_effect].
  pose proof (common_flag_unmentioned pf host (unknown_flags (config s))
                F_external_symbolizer_path He Hp) as H.
  simpl in H. injection H as H. rewrite H.
  unfold tool_defaults. destruct (SANITIZER_EMSCRIPTEN pf); reflexivity.
Qed.

Lemma symbolizer_path_from_environment_witness :
  external_symbolizer_path
    (common_flags (InitializeFlags_effect linux_platform symbolizer_host
                     running_world)) = Some "/usr/bin/llvm-symbolizer" /\
  external_symbolizer_path
    (common_flags (InitializeFlags_effect emscripten_platform symbolizer_host
                     running_world)) = None.
Proof.
  assert (H1 : InitializeFlags linux_platform symbolizer_host
                 (lsan_init_fuel linux_platform symbolizer_host 0) running_world =
               Returned tt (InitializeFlags_effect linux_platform symbolizer_host
                              running_world))
    by (vm_compute; reflexivity).
  assert (H2 : InitializeFlags emscripten_platform symbolizer_host
                 (lsan_init_fuel emscripten_platform symbolizer_host 0)
                 running_world =
               Returned tt (InitializeFlags_effect emscripten_platform
                              symbolizer_host running_world))
    by (vm_compute; reflexivity).
  split.
  - rewrite (symbolizer_path_from_environment linux_platform symbolizer_host 0
               running_world _ eq_refl H1 eq_refl eq_refl).
    reflexivity.
  - rewrite (symbolizer_path_from_environment emscripten_platform symbolizer_host
               0 running_world _ eq_refl H2 eq_refl eq_refl).
    reflexivity.
Defined.

(** X10 — diagnostics follow the resolved flags.  When [InitializeFlags]
    returns, the global verbosity is the resolved [verbosity] and the report
    path is the resolved [log_path]; unrecognized flags have been reported
    exactly if that verbosity is not 0, and the flag descriptions printed
    exactly if [help] is set. *)
Theorem diagnostics_follow_flags pf host n s s' :
  lsan_init_is_running s = true ->
  InitializeFlags pf host (lsan_init_fuel pf host n) s = Returned tt s' ->
  current_verbosity s' = verbosity (common_flags s') /\
  report_path s' = log_path (common_flags s') /\
  times_called C_ReportUnrecognizedFlags s' =
    (times_called C_ReportUnrecognizedFlags s +
     (if (verbosity (common_flags s') =? 0)%Z then 0 else 1))%nat /\
  times_called C_PrintFlagDescriptions s' =
    (times_called C_PrintFlagDescriptions s +
     (if help (common_flags s') then 1 else 0))%nat.
Proof.
  intros Hrun Hret.
  rewrite (InitializeFlags_returned pf host n s s' Hrun Hret).
  split; [reflexivity|]. split; [reflexivity|].
  rewrite !times_called_flags_effect. unfold InitializeFlags_calls, common_flags.
  cbn [config InitializeFlags_effect].
  destruct (SANITIZER_EMSCRIPTEN pf), (verbosity _ =? 0), (help _);
    split; reflexivity.
Qed.

Lemma diagnostics_follow_flags_witness :
  current_verbosity
    (InitializeFlags_effect emscripten_platform options_host running_world) = 2 /\
  times_called C_ReportUnrecognizedFlags
    (InitializeFlags_effect emscripten_platform options_host running_world) = 1%nat.
Proof.
  assert (Hret : InitializeFlags emscripten_platform options_host
                   (lsan_init_fuel emscripten_platform options_host 0)
                   running_world =
                 Returned tt (InitializeFlags_effect emscripten_platform
                                options_host running_world))
    by (vm_compute; reflexivity).
  destruct (diagnostics_follow_flags emscripten_platform options_host 0
              running_world _ eq_refl Hret) as (Hv & _ & Hr & _).
  split.
  - rewrite Hv. vm_compute. reflexivity.
  - rewrite Hr. vm_compute. reflexivity.
Defined.

(** X11 — flag resolution starts from the defaults.  What [InitializeFlags]
    resolves does not depend on the flag values stored before it ran: from
    two states that agree on the unrecognized options collected so far, it
    resolves the same configuration. *)
Theorem InitializeFlags_starts_from_defaults pf host n s1 s2 s1' s2' :
  lsan_init_is_running s1 = true ->
  lsan_init_is_running s2 = true ->
  unknown_flags (config s1) = unknown_flags (config s2) ->
  InitializeFlags pf host (lsan_init_fuel pf host n) s1 = Returned tt s1' ->
  InitializeFlags pf host (lsan_init_fuel pf host n) s2 = Returned tt s2' ->
  config s1' = config s2'.
Proof.
  intros Hr1 Hr2 Hu H1 H2.
  rewrite (InitializeFlags_returned pf host n s1 s1' Hr1 H1).
  rewrite (InitializeFlags_returned pf host n s2 s2' Hr2 H2).
  cbn [config InitializeFlags_effect]. rewrite Hu. reflexivity.
Qed.

Lemma InitializeFlags_starts_from_defaults_witness :
  config (InitializeFlags_effect linux_platform quiet_host running_world) =
  config (InitializeFlags_effect linux_platform quiet_host
            (set_lsan_init_is_running true
               (bring_up_effect linux_platform weakening_host initial_world))).
Proof.
  assert (H1 : InitializeFlags linux_platform quiet_host
                 (lsan_init_fuel linux_platform quiet_host 0) running_world =
               Returned tt (InitializeFlags_effect linux_platform quiet_host
                              running_world))
    by (vm_compute; reflexivity).
  assert (H2 : InitializeFlags linux_platform quiet_host
                 (lsan_init_fuel linux_platform quiet_host 0)
                 (set_lsan_init_is_running true
                    (bring_up_effect linux_platform weakening_host initial_world)) =
               Returned tt
                 (InitializeFlags_effect linux_platform quiet_host
                    (set_lsan_init_is_running true
                       (bring_up_effect linux_platform weakening_host
                          initial_world))))
    by (vm_compute; reflexivity).
  assert (Hu : unknown_flags (config running_world) =
               unknown_flags
                 (config (set_lsan_init_is_running true
                            (bring_up_effect linux_platform weakening_host
                               initial_world))))
    by (vm_compute; reflexivity).
  exact (InitializeFlags_starts_from_defaults linux_platform quiet_host 0
           running_world
           (set_lsan_init_is_running true
              (bring_up_effect linux_platform weakening_host initial_world))
           _ _ eq_refl eq_refl Hu H1 H2).
Defined.

(** X12 — flag resolution touches nothing but flag state.  When
    [InitializeFlags] returns, the initialization state, the tool name, the
    thread registry, the current thread, the exit hooks and the coverage
    state are what they were. *)
Theorem InitializeFlags_touches_only_flag_state pf host n s s' :
  lsan_init_is_running s = true ->
  InitializeFlags pf host (lsan_init_fuel pf host n) s = Returned tt s' ->
  lsan_inited s' = lsan_inited s /\
  lsan_init_is_running s' = lsan_init_is_running s /\
  SanitizerToolName s' = SanitizerToolName s /\
  thread_registry s' = thread_registry s /\
  current_thread_tid s' = current_thread_tid s /\
  atexit_callbacks s' = atexit_callbacks s /\
  coverage_initialized s' = coverage_initialized s.
Proof.
  intros Hrun Hret.
  rewrite (InitializeFlags_returned pf host n s s' Hrun Hret).
  repeat split; reflexivity.
Qed.

Lemma InitializeFlags_touches_only_flag_state_witness :
  atexit_callbacks
    (InitializeFlags_effect emscripten_platform options_host running_world) = [] /\
  thread_registry
    (InitializeFlags_effect emscripten_platform options_host running_world) = None.
Proof.
  assert (Hret : InitializeFlags emscripten_platform options_host
                   (lsan_init_fuel emscripten_platform options_host 0)
                   running_world =
                 Returned tt (InitializeFlags_effect emscripten_platform
                                options_host running_world))
    by (vm_compute; reflexivity).
  destruct (InitializeFlags_touches_only_flag_state emscripten_platform
              options_host 0 running_world _ eq_refl Hret)
    as (_ & _ & _ & Hreg & _ & Hexit & _).
  split; [exact Hexit | exact Hreg].
Defined.

(** ** Unwinding once the runtime is up *)

(** X13 — after start-up, fast unwinding works within the bootstrap
    thread's stack.  In the state a completed first call leaves, a request
    that uses fast unwinding is handed to the unwinder with the stack bounds
    recorded for the bootstrap thread and a null context (on MIPS only if
    [IsValidFrame] accepts the frame pointer against those bounds, and
    otherwise not at all). *)
Theorem fast_unwind_after_init pf host Unwind s0 s1 this pc bp context
    request_fast max_depth :
  lsan_inited s0 = false ->
  __lsan_init pf host s0 = Returned tt s1 ->
  WillUseFastUnwind pf request_fast = true ->
  UnwindImpl pf Unwind s1 this pc bp context request_fast max_depth =
    if negb (SANITIZER_MIPS pf) ||
       IsValidFrame pf bp (os_stack_end host) (os_stack_begin host)
    then Unwind this max_depth pc bp nullptr
           (os_stack_end host) (os_stack_begin host) true
    else this.
Proof.
  intros Hinit Hret Hfast.
  destruct (lsan_init_returned pf host s0 s1 Hinit Hret) as (_ & -> & _ & _).
  rewrite UnwindImpl_fast by exact Hfast. reflexivity.
Qed.

Lemma fast_unwind_after_init_witness :
  UnwindImpl mips_platform Unwind_recorder
    (bring_up_effect mips_platform quiet_host initial_world)
    empty_stack 100 5000 300 true 10 =
  Unwind_recorder empty_stack 10 100 5000 nullptr 8192 4096 true.
Proof.
  assert (Hret : __lsan_init mips_platform quiet_host initial_world =
                 Returned tt (bring_up_effect mips_platform quiet_host
                                initial_world))
    by (vm_compute; reflexivity).
  rewrite (fast_unwind_after_init mips_platform quiet_host Unwind_recorder
             initial_world _ empty_stack 100 5000 300 true 10
             eq_refl Hret eq_refl).
  reflexivity.
Defined.

(** X14 — fast unwinding never looks at the execution context.  Two
    requests that use fast unwinding and differ only in the context produce
    the same frames. *)
Theorem fast_unwind_ignores_context pf Unwind w this pc bp context context'
    request_fast max_depth :
  WillUseFastUnwind pf request_fast = true ->
  UnwindImpl pf Unwind w this pc bp context request_fast max_depth =
  UnwindImpl pf Unwind w this pc bp context' request_fast max_depth.
Proof.
  intros Hfast. rewrite !UnwindImpl_fast by exact Hfast. reflexivity.
Qed.

Lemma fast_unwind_ignores_context_witness :
  UnwindImpl linux_platform Unwind_recorder initial_world empty_stack
    100 200 300 true 10 =
  UnwindImpl linux_platform Unwind_recorder initial_world empty_stack
    100 200 999 true 10.
Proof.
  exact (fast_unwind_ignores_context linux_platform Unwind_recorder initial_world
           empty_stack 100 200 300 999 true 10 eq_refl).
Defined.

(** X15 — frame pointers are validated on MIPS only.  On any other
    platform the result of [UnwindImpl] does not depend on [IsValidFrame]:
    two platforms that are not MIPS and agree on the choice of the unwinder
    give the same frames, and the unwinder is always called. *)
Theorem frame_validation_is_mips_only pf pf' Unwind w this pc bp context
    request_fast max_depth :
  SANITIZER_MIPS pf = false ->
  SANITIZER_MIPS pf' = false ->
  WillUseFastUnwind pf request_fast = WillUseFastUnwind pf' request_fast ->
  UnwindImpl pf Unwind w this pc bp context request_fast max_depth =
  UnwindImpl pf' Unwind w this pc bp context request_fast max_depth /\
  (UnwindImpl pf Unwind w this pc bp context request_fast max_depth =
     Unwind this max_depth pc 0 context 0 0 false \/
   exists top bottom,
     UnwindImpl pf Unwind w this pc bp context request_fast max_depth =
       Unwind this max_depth pc bp nullptr top bottom true).
Proof.
  intros Hm Hm' Hsame.
  destruct (WillUseFastUnwind pf request_fast) eqn:Hfast.
  - rewrite (UnwindImpl_fast pf) by exact Hfast.
    rewrite (UnwindImpl_fast pf') by (symmetry; exact Hsame).
    rewrite Hm, Hm'. cbn [negb orb]. split; [reflexivity|]. right. eauto.
  - rewrite (UnwindImpl_slow pf) by exact Hfast.
    rewrite (UnwindImpl_slow pf') by (symmetry; exact Hsame).
    rewrite Hm, Hm'. cbn [negb orb]. split; [reflexivity|]. left. reflexivity.
Qed.

Lemma frame_validation_is_mips_only_witness :
  UnwindImpl linux_platform Unwind_recorder initial_world empty_stack
    100 0 300 true 10 =
  UnwindImpl (mkPlatform false false (fun b => b) (fun _ _ _ => true))
    Unwind_recorder initial_world empty_stack 100 0 300 true 10.
Proof.
  exact (proj1 (frame_validation_is_mips_only linux_platform
                  (mkPlatform false false (fun b => b) (fun _ _ _ => true))
                  Unwind_recorder initial_world empty_stack 100 0 300 true 10
                  eq_refl eq_refl eq_refl)).
Defined.
